(** * Signature pricing calculator: variant resolution, tier classification,
      price calculation and catalog normalization.

    Shallow embedding of the logic of the [SignaturePricingCalculator]
    React component.  The component's hooks become explicit state passing
    over a [State] record; the asynchronous cart call is a section variable;
    [console] output is kept as a list of messages returned next to each
    result.

    Modelling conventions.
    - JavaScript strings are [string]s of Latin-1 characters.
    - The user count is a JavaScript number that only ever holds an integer
      (it starts at 1 and is changed by [+ 1], [- 1], [Math.max 1] and
      [Number.parseInt]); it is a [Z] here.  The two agree on the safe
      integers, up to [MAX_SAFE_INTEGER] in absolute value; a statement that
      depends on the value of a count, on its decimal string or on what
      [Number.parseInt] reads is made for safe integers only.
    - Prices are JavaScript numbers read by [Number.parseFloat]; they are
      exact rationals with a [NaN] element here: binary rounding of doubles
      and the infinities are outside the model.  The operations agree with
      those on doubles on safe integers; a statement about a price that is
      not a safe integer names the result of an operation and says nothing
      of its exact value.
    - A click on "Get Started" is one step: the state it leaves once the
      awaited cart call has settled.  So is a catalog fetch: the states
      between [setLoading(true)] and the end of the fetch are not states of
      the model. *)

From Stdlib Require Import ZArith QArith Qround List String Ascii Bool Lia.
From Stdlib Require Import DecimalString.
Import ListNotations.

Local Open Scope string_scope.
Local Open Scope Z_scope.

(* ------------------------------------------------------------------ *)
(** ** JavaScript strings *)

Module JsString.

(** [s.includes(t)]: [t] occurs in [s] as a contiguous substring. *)
Fixpoint includes (s t : string) : bool :=
  match s with
  | EmptyString => String.prefix t EmptyString
  | String _ s' => String.prefix t s || includes s' t
  end.

Definition lowerChar (c : ascii) : ascii :=
  let n := nat_of_ascii c in
  if (Nat.leb 65 n && Nat.leb n 90)%bool then ascii_of_nat (n + 32) else c.

(** [s.toLowerCase()] on the ASCII letters. *)
Fixpoint toLowerCase (s : string) : string :=
  match s with
  | EmptyString => EmptyString
  | String c s' => String (lowerChar c) (toLowerCase s')
  end.

(** The characters [Number.parseInt] and [Number.parseFloat] skip at
    the start of their argument. *)
Definition isWhiteSpace (c : ascii) : bool :=
  match nat_of_ascii c with
  | 9%nat | 10%nat | 11%nat | 12%nat | 13%nat | 32%nat | 160%nat => true
  | _ => false
  end.

Fixpoint trimStart (s : string) : string :=
  match s with
  | EmptyString => EmptyString
  | String c s' => if isWhiteSpace c then trimStart s' else s
  end.

(** Truthiness of a string: every string but the empty one. *)
Definition truthy (s : string) : bool := negb (String.eqb s "").

End JsString.

(* ------------------------------------------------------------------ *)
(** ** JavaScript numbers *)

Module JsNumber.

(** A price: a finite value or [NaN]. *)
Inductive number : Type :=
| Fin (q : Q)
| NaN.

Definition ofZ (z : Z) : number := Fin (inject_Z z).

Definition add (a b : number) : number :=
  match a, b with
  | Fin x, Fin y => Fin (Qred (x + y))
  | _, _ => NaN
  end.

Definition mul (a b : number) : number :=
  match a, b with
  | Fin x, Fin y => Fin (Qred (x * y))
  | _, _ => NaN
  end.

(** [a / 2]. *)
Definition half (a : number) : number :=
  match a with
  | Fin x => Fin (Qred (x / 2))
  | NaN => NaN
  end.

(** [a <= b]; every comparison with [NaN] is false. *)
Definition leb (a b : number) : bool :=
  match a, b with
  | Fin x, Fin y => Qle_bool x y
  | _, _ => false
  end.

(** [Math.round]: the nearest integer, halves towards plus infinity. *)
Definition Math_round (a : number) : number :=
  match a with
  | Fin x => ofZ (Qfloor (x + (1 # 2)))
  | NaN => NaN
  end.

(** Value of a character as a digit, for radices up to 36. *)
Definition digitValue (c : ascii) : option Z :=
  let n := Z.of_nat (nat_of_ascii c) in
  if (48 <=? n) && (n <=? 57) then Some (n - 48)
  else if (97 <=? n) && (n <=? 122) then Some (n - 87)
  else if (65 <=? n) && (n <=? 90) then Some (n - 55)
  else None.

(** Longest prefix of [s] made of digits of the radix, as a value;
    [acc] is [None] until a digit has been read. *)
Fixpoint parseDigits (radix : Z) (s : string) (acc : option Z) : option Z :=
  match s with
  | EmptyString => acc
  | String c s' =>
      match digitValue c with
      | Some d =>
          if d <? radix
          then parseDigits radix s'
                 (Some (radix * match acc with Some a => a | None => 0 end + d))
          else acc
      | None => acc
      end
  end.

Definition stripHexPrefix (s : string) : option string :=
  match s with
  | String "0" (String "x" r) => Some r
  | String "0" (String "X" r) => Some r
  | _ => None
  end.

(** [Number.parseInt(s, radix)]; radix [0] stands for an omitted radix.
    [None] is [NaN]. *)
Definition parseInt (s : string) (radix : Z) : option Z :=
  let s1 := JsString.trimStart s in
  let '(sign, s2) :=
    match s1 with
    | String "-" r => (-1, r)
    | String "+" r => (1, r)
    | _ => (1, s1)
    end in
  if (radix =? 0) || ((2 <=? radix) && (radix <=? 36)) then
    let '(r, s3) :=
      if (radix =? 0) || (radix =? 16) then
        match stripHexPrefix s2 with
        | Some rest => (16, rest)
        | None => (if radix =? 0 then 10 else radix, s2)
        end
      else (radix, s2) in
    match parseDigits r s3 None with
    | Some v => Some (sign * v)
    | None => None
    end
  else None.

(** [n.toString()] of an integer (below the 1e21 where JavaScript
    switches to exponent notation). *)
Definition toString (n : Z) : string := NilZero.string_of_int (Z.to_int n).

(** [Number.MAX_SAFE_INTEGER], 2^53 - 1, and [Number.isSafeInteger]: the
    integers on which a double and its arithmetic are exact. *)
Definition MAX_SAFE_INTEGER : Z := 9007199254740991.

Definition isSafeInteger (n : Z) : Prop :=
  - MAX_SAFE_INTEGER <= n <= MAX_SAFE_INTEGER.

End JsNumber.

Import JsNumber.

Module JsFloat.

(** Decimal digits at the start of [s]: their value on top of [acc],
    how many were read, and the rest of the string. *)
Fixpoint readDigits (s : string) (acc : Z) (cnt : nat) : Z * nat * string :=
  match s with
  | EmptyString => (acc, cnt, s)
  | String c s' =>
      let n := Z.of_nat (nat_of_ascii c) in
      if (48 <=? n) && (n <=? 57)
      then readDigits s' (10 * acc + (n - 48)) (S cnt)
      else (acc, cnt, s)
  end.

(** The exponent part ([e], an optional sign, digits), taken only when a
    digit follows. *)
Definition readExponent (s : string) : Z :=
  let body (r : string) (sign : Z) :=
    let '(e, cnt, _) := readDigits r 0 0%nat in
    match cnt with O => 0 | S _ => sign * e end in
  match s with
  | String c r =>
      if (Ascii.eqb c "e" || Ascii.eqb c "E")%bool then
        match r with
        | String "-" r' => body r' (-1)
        | String "+" r' => body r' 1
        | _ => body r 1
        end
      else 0
  | EmptyString => 0
  end.

(** [m * 10^e] as an exact rational. *)
Definition scale10 (m e : Z) : Q :=
  if 0 <=? e then inject_Z (m * 10 ^ e)
  else Qred (Qmake m (Z.to_pos (10 ^ (- e)))).

(** [Number.parseFloat(s)] on decimal literals. *)
Definition parseFloat (s : string) : number :=
  let s1 := JsString.trimStart s in
  let '(sign, s2) :=
    match s1 with
    | String "-" r => (-1, r)
    | String "+" r => (1, r)
    | _ => (1, s1)
    end in
  let '(ip, icnt, s3) := readDigits s2 0 0%nat in
  let '(m, fcnt, s4) :=
    match s3 with
    | String "." r => readDigits r ip 0%nat
    | _ => (ip, 0%nat, s3)
    end in
  match (icnt + fcnt)%nat with
  | O => NaN
  | S _ => Fin (scale10 (sign * m) (readExponent s4 - Z.of_nat fcnt))
  end.

End JsFloat.

(** [Array.prototype.sort] with a comparator: a stable sort.  [cmp a b < 0]
    puts [a] first, [cmp a b > 0] puts [b] first, and elements that compare
    equal keep their order. *)
Module JsArray.
Section Sort.
Context {A : Type} (cmp : A -> A -> Z).

Fixpoint insert (x : A) (l : list A) : list A :=
  match l with
  | [] => [x]
  | y :: l' => if cmp x y <=? 0 then x :: l else y :: insert x l'
  end.

Definition sort (l : list A) : list A := fold_right insert [] l.
End Sort.
End JsArray.

(* ------------------------------------------------------------------ *)
(** ** Data model *)

Module SelectedOption.
Record t : Type := mk { name : string; value : string }.
End SelectedOption.

Module ShopifyVariant.
(** A variant as built by the catalog fetch: [price] is the decimal
    string of [priceV2.amount]; [selectedOptions] may be absent. *)
Record t : Type := mk {
  id : string;
  title : string;
  price : string;
  available : bool;
  selectedOptions : option (list SelectedOption.t)
}.
End ShopifyVariant.

Module ShopifyProduct.
(** Modelled from the spec: the declaration of [ShopifyProduct] in
    [@/lib/shopify] is not among the sources; the fields are those the
    catalog fetch of this component fills in and the spec's CatalogProduct
    lists.  The handle is optional, as it is in [PricingOption]. *)
Record t : Type := mk {
  id : string;
  title : string;
  description : string;
  handle : option string;
  variants : list ShopifyVariant.t
}.
End ShopifyProduct.

Module PricingOption.
Record t : Type := mk {
  id : string;
  name : string;
  description : string;
  price : number;
  handle : option string
}.
End PricingOption.

(** The second argument of a [console.error]: the product at hand, or the
    exception caught, as its message. *)
Inductive ConsoleArg : Type :=
| ProductArg (product : ShopifyProduct.t)
| ThrownArg (message : string).

Inductive ConsoleMsg : Type :=
| console_log (s : string)
| console_warn (s : string)
| console_error (s : string) (arg : ConsoleArg).

(** Default price per user. *)
Definition USER_PRICE : Z := 50.

(* ------------------------------------------------------------------ *)
(** ** Tier classifier *)

Definition getDisplayTitle (opt : PricingOption.t) : string :=
  let byHandle : option string :=
    match PricingOption.handle opt with
    | Some h =>
        if JsString.truthy h then
          if JsString.includes h "starter" then Some "Starter"
          else if JsString.includes h "custom" then Some "Essential"
          else if JsString.includes h "premium" then Some "Premium"
          else None
        else None
    | None => None
    end in
  match byHandle with
  | Some label => label
  | None =>
      let id := JsString.toLowerCase (PricingOption.id opt) in
      if JsString.includes id "starter" then "Starter"
      else if JsString.includes id "custom" || JsString.includes id "essential"
      then "Essential"
      else if JsString.includes id "premium" then "Premium"
      else if (PricingOption.name opt =? "Starter")%string
              || (PricingOption.name opt =? "Essential")%string
              || (PricingOption.name opt =? "Premium")%string
      then PricingOption.name opt
      else if leb (PricingOption.price opt) (ofZ 950) then "Starter"
      else if leb (PricingOption.price opt) (ofZ 1450) then "Essential"
      else "Premium"
  end.

(* ------------------------------------------------------------------ *)
(** ** Variant resolver *)

Definition isUserCountOption (o : SelectedOption.t) : bool :=
  (SelectedOption.name o =? "User Count")%string.

(** The user count of a variant as a number, or 0 if not found. *)
Definition extractUserCount (variant : ShopifyVariant.t) : Z :=
  match ShopifyVariant.selectedOptions variant with
  | None => 0
  | Some opts =>
      match find isUserCountOption opts with
      | None => 0
      | Some countOption =>
          match parseInt (SelectedOption.value countOption) 10 with
          | None => 0
          | Some count => count
          end
      end
  end.

(** The callback of [product.variants.find] in the exact-match step. *)
Definition isExactMatch (userCount : Z) (variant : ShopifyVariant.t) : bool :=
  match ShopifyVariant.selectedOptions variant with
  | None => false
  | Some opts =>
      existsb (fun o => isUserCountOption o
                        && (SelectedOption.value o =? toString userCount)%string)
              opts
  end.

(** The callback of [product.variants.filter] in the closest-match step. *)
Definition isValidVariant (userCount : Z) (variant : ShopifyVariant.t) : bool :=
  match ShopifyVariant.selectedOptions variant with
  | None => false
  | Some opts =>
      match find isUserCountOption opts with
      | None => false
      | Some countOption =>
          match parseInt (SelectedOption.value countOption) 10 with
          | None => false
          | Some count => count <=? userCount
          end
      end
  end.

Definition PREMIUM_QUOTE : string := "gid://shopify/ProductVariant/44872062795961".
Definition ESSENTIAL_QUOTE : string := "gid://shopify/ProductVariant/44872056373433".
Definition STARTER_QUOTE : string := "gid://shopify/ProductVariant/44872043167929".

Definition NO_TYPE_WARNING : string :=
  "Could not determine product type for custom quote, using first variant".

(** The pricing option the resolver hands to the classifier above 50 users. *)
Definition quoteOption (product : ShopifyProduct.t) : PricingOption.t :=
  {| PricingOption.id := ShopifyProduct.id product;
     PricingOption.name := ShopifyProduct.title product;
     PricingOption.description := ShopifyProduct.description product;
     PricingOption.price := ofZ 0;
     PricingOption.handle := ShopifyProduct.handle product |}.

(** Finds the variant id that matches the user count; [None] is [null].
    The first component is what the call writes to the console. *)
Definition findVariantForUserCount (product : ShopifyProduct.t) (userCount : Z)
  : list ConsoleMsg * option string :=
  match ShopifyProduct.variants product with
  | [] =>
      ([console_error "Invalid product or no variants available"
                      (ProductArg product)], None)
  | first :: _ =>
      if userCount >? 50 then
        let l0 := console_log ("Using Custom Quote variant for user count > 50: "
                               ++ toString userCount) in
        let productType := getDisplayTitle (quoteOption product) in
        if (productType =? "Premium")%string then
          ([l0; console_log "Using Premium Custom Quote variant ID: 44872062795961"],
           Some PREMIUM_QUOTE)
        else if (productType =? "Essential")%string then
          ([l0; console_log "Using Essential Custom Quote variant ID: 44872056373433"],
           Some ESSENTIAL_QUOTE)
        else if (productType =? "Starter")%string then
          ([l0; console_log "Using Starter Custom Quote variant ID: 44872043167929"],
           Some STARTER_QUOTE)
        else
          ([l0; console_warn NO_TYPE_WARNING], Some (ShopifyVariant.id first))
      else
        let l1 := console_log ("Looking for exact match for user count: "
                               ++ toString userCount) in
        match find (isExactMatch userCount) (ShopifyProduct.variants product) with
        | Some exactMatch =>
            ([l1; console_log ("Found exact match variant: "
                               ++ ShopifyVariant.id exactMatch)],
             Some (ShopifyVariant.id exactMatch))
        | None =>
            let l2 := console_log
                        ("No exact match found, looking for closest match below "
                         ++ toString userCount) in
            let validVariants :=
              JsArray.sort
                (fun a b => extractUserCount b - extractUserCount a)
                (filter (isValidVariant userCount)
                        (ShopifyProduct.variants product)) in
            match validVariants with
            | best :: _ =>
                ([l1; l2;
                  console_log ("Using closest match variant: "
                               ++ ShopifyVariant.id best ++ " ("
                               ++ toString (extractUserCount best) ++ " users)")],
                 if JsString.truthy (ShopifyVariant.id best)
                 then Some (ShopifyVariant.id best) else None)
            | [] =>
                ([l1; l2;
                  console_log ("No matching variant found, using first variant: "
                               ++ ShopifyVariant.id first)],
                 Some (ShopifyVariant.id first))
            end
        end
  end.

(* ------------------------------------------------------------------ *)
(** ** Component state *)

Record State : Type := mkState {
  products : option (list ShopifyProduct.t);
  animationPackages : list PricingOption.t;
  selectedAnimation : string;
  userCount : Z;
  totalPrice : number;
  isCustomPricing : bool;
  isSubmitting : bool;
  error : option string;
  loading : bool
}.

Definition setProducts (v : option (list ShopifyProduct.t)) (st : State) : State :=
  mkState v (animationPackages st) (selectedAnimation st) (userCount st)
          (totalPrice st) (isCustomPricing st) (isSubmitting st) (error st)
          (loading st).

Definition setAnimationPackages (v : list PricingOption.t) (st : State) : State :=
  mkState (products st) v (selectedAnimation st) (userCount st)
          (totalPrice st) (isCustomPricing st) (isSubmitting st) (error st)
          (loading st).

Definition setSelectedAnimation (v : string) (st : State) : State :=
  mkState (products st) (animationPackages st) v (userCount st)
          (totalPrice st) (isCustomPricing st) (isSubmitting st) (error st)
          (loading st).

Definition setUserCount (v : Z) (st : State) : State :=
  mkState (products st) (animationPackages st) (selectedAnimation st) v
          (totalPrice st) (isCustomPricing st) (isSubmitting st) (error st)
          (loading st).

Definition setTotalPrice (v : number) (st : State) : State :=
  mkState (products st) (animationPackages st) (selectedAnimation st)
          (userCount st) v (isCustomPricing st) (isSubmitting st) (error st)
          (loading st).

Definition setIsCustomPricing (v : bool) (st : State) : State :=
  mkState (products st) (animationPackages st) (selectedAnimation st)
          (userCount st) (totalPrice st) v (isSubmitting st) (error st)
          (loading st).

Definition setIsSubmitting (v : bool) (st : State) : State :=
  mkState (products st) (animationPackages st) (selectedAnimation st)
          (userCount st) (totalPrice st) (isCustomPricing st) v (error st)
          (loading st).

Definition setError (v : option string) (st : State) : State :=
  mkState (products st) (animationPackages st) (selectedAnimation st)
          (userCount st) (totalPrice st) (isCustomPricing st) (isSubmitting st)
          v (loading st).

Definition setLoading (v : bool) (st : State) : State :=
  mkState (products st) (animationPackages st) (selectedAnimation st)
          (userCount st) (totalPrice st) (isCustomPricing st) (isSubmitting st)
          (error st) v.

(** The [useState] initial values, for the [products] prop. *)
Definition initialState (initialProducts : option (list ShopifyProduct.t)) : State :=
  mkState initialProducts [] "" 1 (ofZ 0) false false None true.

(** The selection state of the spec: tier id, user count, total, flag. *)
Definition selection (st : State) : string * Z * number * bool :=
  (selectedAnimation st, userCount st, totalPrice st, isCustomPricing st).

(* ------------------------------------------------------------------ *)
(** ** Effects *)

(** What the catalog request ends in: the transformed product list, or an
    exception with its rendered message. *)
Inductive FetchResult : Type :=
| FetchOk (fetched : list ShopifyProduct.t)
| FetchThrows (message : string).

(** The effect on [initialProducts]: take the prop when there is one,
    fetch otherwise. *)
Definition fetchProducts (initialProducts : option (list ShopifyProduct.t))
    (response : FetchResult) (st : State) : State :=
  match initialProducts with
  | Some ps => setProducts (Some ps) st
  | None =>
      let st1 := setLoading true st in
      let st2 :=
        match response with
        | FetchOk fetched => setProducts (Some fetched) st1
        | FetchThrows message =>
            setError (Some ("Error fetching products: " ++ message)) st1
        end in
      setLoading false st2
  end.

(** The callback of [products.map]: one pricing option of a product. *)
Definition formatPackage (product : ShopifyProduct.t) : PricingOption.t :=
  let basePrice :=
    match ShopifyProduct.variants product with
    | first :: _ => JsFloat.parseFloat (ShopifyVariant.price first)
    | [] => ofZ 0
    end in
  {| PricingOption.id := ShopifyProduct.id product;
     PricingOption.name := ShopifyProduct.title product;
     PricingOption.description := ShopifyProduct.description product;
     PricingOption.price := basePrice;
     PricingOption.handle := ShopifyProduct.handle product |}.

(** The effect on [products]: process products when they are available. *)
Definition processProducts (st : State) : State :=
  match products st with
  | None => st
  | Some ps => setAnimationPackages (map formatPackage ps) st
  end.

Definition selectedPackage (st : State) : option PricingOption.t :=
  find (fun p => (PricingOption.id p =? selectedAnimation st)%string)
       (animationPackages st).

(** The effect on [selectedAnimation], [userCount] and
    [animationPackages]: calculate the total price. *)
Definition calculateTotal (st : State) : State :=
  match selectedPackage st with
  | None => setTotalPrice (ofZ 0) st
  | Some pkg =>
      if userCount st >? 50 then setIsCustomPricing true st
      else
        setTotalPrice
          (add (PricingOption.price pkg)
               (mul (ofZ USER_PRICE) (ofZ (userCount st))))
          (setIsCustomPricing false st)
  end.

(* ------------------------------------------------------------------ *)
(** ** User count controls *)

Definition clickDecrement (st : State) : State :=
  setUserCount (Z.max 1 (userCount st - 1)) st.

Definition clickIncrement (st : State) : State :=
  setUserCount (userCount st + 1) st.

(** [onChange] of the numeric input, [value] being [e.target.value]. *)
Definition changeUserCount (value : string) (st : State) : State :=
  match parseInt value 0 with
  | Some v => setUserCount (Z.max 1 v) st
  | None => st
  end.

(* ------------------------------------------------------------------ *)
(** ** Total price display *)

Inductive TotalDisplay : Type :=
| SelectPackagePrompt
| CustomQuote
| Priced (total : number) (deposit : number).

(** The "Your Total" panel of the pricing section. *)
Definition totalDisplay (st : State) : TotalDisplay :=
  if negb (JsString.truthy (selectedAnimation st)) then SelectPackagePrompt
  else if isCustomPricing st then CustomQuote
  else Priced (totalPrice st) (Math_round (half (totalPrice st))).

(* ------------------------------------------------------------------ *)
(** ** Checkout handoff *)

(** What [createCart] ends in: a cart with its checkout URL, or an
    exception with its rendered message. *)
Inductive CartResult : Type :=
| CartOk (checkoutUrl : string)
| CartThrows (message : string).

Record CartCall : Type := mkCartCall {
  cc_variantId : string;
  cc_quantity : Z;
  cc_customAttributes : list (string * string);
  cc_sellingPlanId : string
}.

(** What a click on "Get Started" leaves behind: the state, the console,
    the calls made to [createCart] and the page navigated to, if any. *)
Record Outcome : Type := mkOutcome {
  finalState : State;
  console : list ConsoleMsg;
  cartCalls : list CartCall;
  location : option string
}.

(** Hardcoded selling plan ID for 50% deposit. *)
Definition sellingPlanId : string := "gid://shopify/SellingPlan/3226403001".

Section Checkout.

(** [createCart] of [@/lib/shopify], an external service. *)
Variable createCart : string -> Z -> list (string * string) -> string -> CartResult.

(** The body of [try]: console output, cart calls, and either the
    message of the exception thrown or the URL navigated to. *)
Definition tryGetStarted (st : State)
  : list ConsoleMsg * list CartCall * (string + string) :=
  match selectedPackage st with
  | None => ([], [], inl "Selected package not found")
  | Some _ =>
      let found :=
        match products st with
        | None => None
        | Some ps =>
            find (fun p => (ShopifyProduct.id p =? selectedAnimation st)%string) ps
        end in
      match found with
      | None => ([], [], inl "Product not found")
      | Some product =>
          let '(logs, variantId) :=
            findVariantForUserCount product (userCount st) in
          let noVariant :=
            (logs, [],
             inl ("No variant found for user count: " ++ toString (userCount st))) in
          match variantId with
          | None => noVariant
          | Some vid =>
              if JsString.truthy vid then
                let logs' :=
                  (logs ++ [console_log ("Selected variant ID: " ++ vid
                                         ++ " for user count: "
                                         ++ toString (userCount st))])%list in
                let customAttributes := [("User Count", toString (userCount st))] in
                let call := mkCartCall vid 1 customAttributes sellingPlanId in
                match createCart vid 1 customAttributes sellingPlanId with
                | CartOk checkoutUrl => (logs', [call], inr checkoutUrl)
                | CartThrows message => (logs', [call], inl message)
                end
              else noVariant
          end
      end
  end.

Definition handleGetStarted (st : State) : Outcome :=
  let st1 := setError None (setIsSubmitting true st) in
  let '(logs, calls, result) := tryGetStarted st1 in
  match result with
  | inr checkoutUrl =>
      mkOutcome (setIsSubmitting false st1) logs calls (Some checkoutUrl)
  | inl message =>
      mkOutcome
        (setIsSubmitting false (setError (Some ("Error: " ++ message)) st1))
        (logs ++ [console_error "Error adding to cart:" (ThrownArg message)])%list
        calls None
  end.

End Checkout.

(* ================================================================== *)
(** * Properties *)

(** ** Tier classifier *)

Definition isLabel (s : string) : Prop :=
  s = "Starter" \/ s = "Essential" \/ s = "Premium".

(** No metadata rule of the classifier applies: neither the handle nor the
    lower-cased id holds a tier word, and the name is not a label. *)
Definition noMetadataRule (opt : PricingOption.t) : Prop :=
  (forall h, PricingOption.handle opt = Some h ->
     JsString.includes h "starter" = false
     /\ JsString.includes h "custom" = false
     /\ JsString.includes h "premium" = false)
  /\ (forall w, In w ["starter"; "custom"; "essential"; "premium"] ->
        JsString.includes (JsString.toLowerCase (PricingOption.id opt)) w = false)
  /\ ~ isLabel (PricingOption.name opt).

Lemma includes_empty (t : string) :
  t <> "" -> JsString.includes "" t = false.
Proof. destruct t; [congruence | reflexivity]. Qed.

Lemma includes_truthy (h t : string) :
  t <> "" -> JsString.includes h t = true -> JsString.truthy h = true.
Proof.
  intros Ht Hin. destruct h as [| c h']; [| reflexivity].
  rewrite includes_empty in Hin by assumption. discriminate.
Qed.

Lemma getDisplayTitle_label (opt : PricingOption.t) :
  isLabel (getDisplayTitle opt).
Proof.
  unfold getDisplayTitle, isLabel.
  repeat match goal with
         | |- context [match ?x with _ => _ end] =>
             lazymatch x with
             | context [match _ with _ => _ end] => fail
             | _ => destruct x eqn:?
             end
         end; auto.
  all: repeat match goal with
         | H : _ || _ = true |- _ => apply orb_true_iff in H; destruct H as [H | H]
         | H : (_ =? _)%string = true |- _ => apply String.eqb_eq in H
         end; auto.
Qed.

Lemma noMetadataRule_price (opt : PricingOption.t) :
  noMetadataRule opt ->
  getDisplayTitle opt =
    if leb (PricingOption.price opt) (ofZ 950) then "Starter"
    else if leb (PricingOption.price opt) (ofZ 1450) then "Essential"
    else "Premium".
Proof.
  intros (Hh & Hid & Hname). unfold getDisplayTitle.
  assert (Hnone :
    match PricingOption.handle opt with
    | Some h =>
        if JsString.truthy h then
          if JsString.includes h "starter" then Some "Starter"
          else if JsString.includes h "custom" then Some "Essential"
          else if JsString.includes h "premium" then Some "Premium"
          else None
        else None
    | None => None
    end = None).
  { destruct (PricingOption.handle opt) as [h |]; [| reflexivity].
    destruct (Hh h eq_refl) as (-> & -> & ->). now destruct (JsString.truthy h). }
  rewrite Hnone.
  rewrite !Hid by (simpl; auto). simpl.
  destruct ((PricingOption.name opt =? "Starter")%string
            || (PricingOption.name opt =? "Essential")%string
            || (PricingOption.name opt =? "Premium")%string) eqn:E;
    [| reflexivity].
  exfalso. apply Hname. unfold isLabel.
  repeat match goal with
         | H : _ || _ = true |- _ => apply orb_true_iff in H; destruct H as [H | H]
         | H : (_ =? _)%string = true |- _ => apply String.eqb_eq in H
         end; auto.
Qed.

(** C6: a handle that contains "premium" gives the label Premium whatever the
    price, id, name and description are, provided the handle contains
    neither "starter" nor "custom", which the classifier tests first; the
    label is a function of the pricing option alone. *)
Theorem getDisplayTitle_premium_handle (opt : PricingOption.t) (h : string) :
  PricingOption.handle opt = Some h ->
  JsString.includes h "premium" = true ->
  JsString.includes h "starter" = false ->
  JsString.includes h "custom" = false ->
  forall id name description price,
    getDisplayTitle
      (PricingOption.mk id name description price (Some h)) = "Premium"
    /\ getDisplayTitle opt = "Premium".
Proof.
  intros Hh Hp Hs Hc id name description price.
  assert (Ht : JsString.truthy h = true)
    by (apply (includes_truthy h "premium"); [discriminate | assumption]).
  split; unfold getDisplayTitle; [cbn [PricingOption.handle] | rewrite Hh];
    now rewrite Ht, Hs, Hc, Hp.
Qed.

Definition premiumStarterOption (price : number) : PricingOption.t :=
  PricingOption.mk "gid://shopify/Product/7" "Signature" "" price
                   (Some "premium-starter-bundle").

(** C6, as stated, fails: a handle holding both "premium" and "starter" is
    classified Starter, and one holding "premium" and "custom" Essential. *)
Lemma getDisplayTitle_premium_handle_not_always :
  JsString.includes "premium-starter-bundle" "premium" = true
  /\ getDisplayTitle (premiumStarterOption (ofZ 2000)) = "Starter"
  /\ ~ (forall opt h,
          PricingOption.handle opt = Some h ->
          JsString.includes h "premium" = true ->
          getDisplayTitle opt = "Premium").
Proof.
  split; [reflexivity |]. split; [reflexivity |].
  intros H.
  specialize (H (premiumStarterOption (ofZ 2000)) "premium-starter-bundle"
                eq_refl eq_refl).
  vm_compute in H. discriminate.
Qed.

Lemma getDisplayTitle_premium_handle_witness :
  getDisplayTitle
    (PricingOption.mk "gid://shopify/Product/9" "Signature" "" (ofZ 100)
                      (Some "premium-signature")) = "Premium"
  /\ getDisplayTitle
       (PricingOption.mk "x" "y" "z" NaN (Some "premium-signature")) = "Premium".
Proof.
  pose proof (getDisplayTitle_premium_handle
                (PricingOption.mk "x" "y" "z" NaN (Some "premium-signature"))
                "premium-signature" eq_refl eq_refl eq_refl eq_refl
                "gid://shopify/Product/9" "Signature" "" (ofZ 100)) as [H1 H2].
  split; assumption.
Defined.

(* ------------------------------------------------------------------ *)
(** ** Large orders *)

(** The custom-quote variant of a label: one constant per label. *)
Definition quoteVariantFor (label : string) : string :=
  if (label =? "Premium")%string then PREMIUM_QUOTE
  else if (label =? "Essential")%string then ESSENTIAL_QUOTE
  else STARTER_QUOTE.

Definition quoteVariants : list string :=
  [PREMIUM_QUOTE; ESSENTIAL_QUOTE; STARTER_QUOTE].

Lemma quoteVariants_distinct : NoDup quoteVariants.
Proof.
  unfold quoteVariants.
  repeat constructor; simpl; intuition discriminate.
Qed.

Lemma quoteVariantFor_in (label : string) : In (quoteVariantFor label) quoteVariants.
Proof.
  unfold quoteVariantFor, quoteVariants.
  destruct (label =? "Premium")%string; [simpl; auto |].
  destruct (label =? "Essential")%string; simpl; auto.
Qed.

(** The classifier never reads the description. *)
Lemma getDisplayTitle_ext (a b : PricingOption.t) :
  PricingOption.id a = PricingOption.id b ->
  PricingOption.name a = PricingOption.name b ->
  PricingOption.price a = PricingOption.price b ->
  PricingOption.handle a = PricingOption.handle b ->
  getDisplayTitle a = getDisplayTitle b.
Proof.
  intros Hi Hn Hp Hh. unfold getDisplayTitle. now rewrite Hi, Hn, Hp, Hh.
Qed.

(** The large-order step on a product with a variant: the result and the
    console, by the label of [quoteOption]. *)
Lemma findVariant_large (product : ShopifyProduct.t) (userCount : Z) :
  ShopifyProduct.variants product <> [] ->
  userCount > 50 ->
  exists line,
    findVariantForUserCount product userCount =
      ([console_log ("Using Custom Quote variant for user count > 50: "
                     ++ toString userCount);
        console_log line],
       Some (quoteVariantFor (getDisplayTitle (quoteOption product)))).
Proof.
  intros Hne Hu. unfold findVariantForUserCount, quoteVariantFor.
  destruct (ShopifyProduct.variants product) as [| first rest]; [congruence |].
  replace (userCount >? 50) with true by (symmetry; apply Z.gtb_lt; lia).
  destruct (getDisplayTitle_label (quoteOption product)) as [E | [E | E]];
    rewrite E; simpl; eexists; reflexivity.
Qed.

(** C1 (amended): above 50 users, on a product with at least one variant,
    the resolver returns one of the three custom-quote variant ids, the one
    of the label the classifier gives the product's id, title and handle at
    price 0; the variants and their options play no part. *)
Theorem large_order_variant_by_label (product : ShopifyProduct.t) (u : Z) :
  ShopifyProduct.variants product <> [] ->
  u > 50 ->
  let label := getDisplayTitle (quoteOption product) in
  isLabel label
  /\ snd (findVariantForUserCount product u) = Some (quoteVariantFor label)
  /\ In (quoteVariantFor label) quoteVariants
  /\ NoDup quoteVariants
  /\ forall product' u',
       ShopifyProduct.variants product' <> [] ->
       u' > 50 ->
       ShopifyProduct.id product' = ShopifyProduct.id product ->
       ShopifyProduct.title product' = ShopifyProduct.title product ->
       ShopifyProduct.handle product' = ShopifyProduct.handle product ->
       snd (findVariantForUserCount product' u')
       = snd (findVariantForUserCount product u).
Proof.
  intros Hne Hu label. subst label.
  destruct (findVariant_large product u Hne Hu) as [line E].
  repeat split.
  - apply getDisplayTitle_label.
  - now rewrite E.
  - apply quoteVariantFor_in.
  - apply quoteVariants_distinct.
  - intros product' u' Hne' Hu' Hid Htitle Hhandle.
    destruct (findVariant_large product' u' Hne' Hu') as [line' E'].
    rewrite E, E'. simpl. do 2 f_equal.
    apply getDisplayTitle_ext; simpl; auto.
Qed.

Definition plainVariant (id price : string) : ShopifyVariant.t :=
  ShopifyVariant.mk id "Default" price true None.

Definition noVariantProduct : ShopifyProduct.t :=
  ShopifyProduct.mk "gid://shopify/Product/1" "Starter" "" (Some "starter-signature") [].

(** A product no metadata rule applies to, priced above both price bands. *)
Definition unlabelledProduct : ShopifyProduct.t :=
  ShopifyProduct.mk "gid://shopify/Product/8" "Signature Pack" "" None
                    [plainVariant "gid://shopify/ProductVariant/80" "2000.00"].

(** C1, as stated, fails twice: a product without variants gets no variant
    above 50 users, and a product classified Premium by its base price gets
    the Starter custom-quote variant. *)
Lemma large_order_not_always_tier_label :
  snd (findVariantForUserCount noVariantProduct 51) = None
  /\ getDisplayTitle (formatPackage unlabelledProduct) = "Premium"
  /\ snd (findVariantForUserCount unlabelledProduct 51) = Some STARTER_QUOTE
  /\ ~ (forall product u,
          u > 50 ->
          snd (findVariantForUserCount product u)
          = Some (quoteVariantFor (getDisplayTitle (formatPackage product)))).
Proof.
  repeat split; try reflexivity.
  intros H. specialize (H noVariantProduct 51 eq_refl). discriminate.
Qed.

Lemma large_order_variant_by_label_witness :
  snd (findVariantForUserCount unlabelledProduct 51) = Some STARTER_QUOTE.
Proof.
  destruct (large_order_variant_by_label unlabelledProduct 51) as (_ & H & _).
  - discriminate.
  - reflexivity.
  - exact H.
Defined.

(** C7: above 50 users, on a product with at least one variant, the
    resolver never warns that the product type is unknown and never falls
    back to the first variant: it returns one of the three custom-quote
    ids.  When no handle, id or name rule applies it returns the Starter
    one, because the classifier is called at price 0, although the tier
    made from the product is labelled by the bands of its base price. *)
Theorem large_order_fallback_unreachable (product : ShopifyProduct.t) (u : Z) :
  ShopifyProduct.variants product <> [] ->
  u > 50 ->
  ~ In (console_warn NO_TYPE_WARNING) (fst (findVariantForUserCount product u))
  /\ (exists id, snd (findVariantForUserCount product u) = Some id
                 /\ In id quoteVariants)
  /\ (noMetadataRule (quoteOption product) ->
      getDisplayTitle (quoteOption product) = "Starter"
      /\ snd (findVariantForUserCount product u) = Some STARTER_QUOTE
      /\ getDisplayTitle (formatPackage product) =
           let price := PricingOption.price (formatPackage product) in
           if leb price (ofZ 950) then "Starter"
           else if leb price (ofZ 1450) then "Essential"
           else "Premium").
Proof.
  intros Hne Hu.
  destruct (findVariant_large product u Hne Hu) as [line E].
  rewrite E. simpl fst. simpl snd. split; [| split].
  - intros [H | [H | []]]; discriminate.
  - eexists. split; [reflexivity | apply quoteVariantFor_in].
  - intros Hno.
    assert (Hs : getDisplayTitle (quoteOption product) = "Starter")
      by (rewrite (noMetadataRule_price _ Hno); reflexivity).
    split; [exact Hs |]. split; [now rewrite Hs |].
    apply noMetadataRule_price. exact Hno.
Qed.

Lemma unlabelledProduct_noMetadataRule :
  noMetadataRule (quoteOption unlabelledProduct).
Proof.
  split; [| split].
  - intros h [=].
  - intros w [<- | [<- | [<- | [<- | []]]]]; reflexivity.
  - intros [H | [H | H]]; discriminate H.
Qed.

Lemma large_order_fallback_unreachable_witness :
  ~ In (console_warn NO_TYPE_WARNING)
       (fst (findVariantForUserCount unlabelledProduct 51))
  /\ (exists id, snd (findVariantForUserCount unlabelledProduct 51) = Some id
                 /\ In id quoteVariants)
  /\ snd (findVariantForUserCount unlabelledProduct 51) = Some STARTER_QUOTE
  /\ getDisplayTitle (formatPackage unlabelledProduct) = "Premium"%string.
Proof.
  destruct (large_order_fallback_unreachable unlabelledProduct 51)
    as (H1 & H2 & H3).
  - discriminate.
  - reflexivity.
  - destruct (H3 unlabelledProduct_noMetadataRule) as (_ & H4 & H5).
    split; [exact H1 |]. split; [exact H2 |]. split; [exact H4 | exact H5].
Defined.

(* ------------------------------------------------------------------ *)
(** ** Resolution up to 50 users: the reference definition *)

Local Open Scope list_scope.

Module Reference.

(** The number a variant's "User Count" option parses to, if any. *)
Definition variantCount (v : ShopifyVariant.t) : option Z :=
  match ShopifyVariant.selectedOptions v with
  | None => None
  | Some opts =>
      match find isUserCountOption opts with
      | None => None
      | Some o => parseInt (SelectedOption.value o) 10
      end
  end.

(** [v] has an option named "User Count" whose value is the decimal
    string of [u]. *)
Definition HasExact (u : Z) (v : ShopifyVariant.t) : Prop :=
  exists opts o,
    ShopifyVariant.selectedOptions v = Some opts
    /\ In o opts
    /\ SelectedOption.name o = "User Count"
    /\ SelectedOption.value o = toString u.

(** [v]'s "User Count" option parses to [c], at most [u]. *)
Definition Qualifies (u : Z) (v : ShopifyVariant.t) (c : Z) : Prop :=
  variantCount v = Some c /\ c <= u.

(** [v] is the first element of [vs], in source order, that satisfies [P]. *)
Definition FirstIn (P : ShopifyVariant.t -> Prop)
    (vs : list ShopifyVariant.t) (v : ShopifyVariant.t) : Prop :=
  exists pre post,
    vs = pre ++ v :: post /\ P v /\ forall v', In v' pre -> ~ P v'.

(** [v] has the greatest qualifying count of [vs], and is the first in
    source order to have it. *)
Definition ClosestIn (u : Z) (vs : list ShopifyVariant.t)
    (v : ShopifyVariant.t) : Prop :=
  exists pre post c,
    vs = pre ++ v :: post
    /\ Qualifies u v c
    /\ (forall v' c', In v' pre -> Qualifies u v' c' -> c' < c)
    /\ (forall v' c', In v' post -> Qualifies u v' c' -> c' <= c).

Inductive Resolution : Type := ExactMatch | ClosestBelow | FirstVariant.

(** The three steps of the reference definition, in order. *)
Inductive Resolves (vs : list ShopifyVariant.t) (u : Z)
  : Resolution -> ShopifyVariant.t -> Prop :=
| Resolves_exact v :
    FirstIn (HasExact u) vs v ->
    Resolves vs u ExactMatch v
| Resolves_closest v :
    (forall v', In v' vs -> ~ HasExact u v') ->
    ClosestIn u vs v ->
    Resolves vs u ClosestBelow v
| Resolves_first v rest :
    (forall v', In v' vs -> ~ HasExact u v') ->
    (forall v' c, In v' vs -> ~ Qualifies u v' c) ->
    vs = v :: rest ->
    Resolves vs u FirstVariant v.

(** What the reference definition returns: the id of the variant. *)
Definition returnsId (v : ShopifyVariant.t) : option string :=
  Some (ShopifyVariant.id v).

(** What the code returns: the id, but [null] for an empty id chosen by
    the closest-match step ([validVariants[0]?.id || null]). *)
Definition returned (r : Resolution) (v : ShopifyVariant.t) : option string :=
  match r with
  | ClosestBelow =>
      if JsString.truthy (ShopifyVariant.id v)
      then Some (ShopifyVariant.id v) else None
  | ExactMatch | FirstVariant => Some (ShopifyVariant.id v)
  end.

End Reference.

Import Reference.

Section ListFacts.
Context {A : Type}.

(** Two splittings of one list at an element: the same place, or one
    place before the other. *)
Lemma split_compare (pre pre' post post' : list A) (x x' : A) :
  pre ++ x :: post = pre' ++ x' :: post' ->
  (pre = pre' /\ x = x' /\ post = post')
  \/ (exists m, pre' = pre ++ x :: m /\ post = m ++ x' :: post')
  \/ (exists m, pre = pre' ++ x' :: m /\ post' = m ++ x :: post).
Proof.
  revert pre'. induction pre as [| a pre IH]; intros [| a' pre'] E;
    simpl in E; injection E as -> E'.
  - left. subst. auto.
  - right. left. exists pre'. subst. auto.
  - right. right. exists pre. subst. auto.
  - destruct (IH _ E') as [(-> & -> & ->) | [(m & -> & ->) | (m & -> & ->)]].
    + left. auto.
    + right. left. exists m. auto.
    + right. right. exists m. auto.
Qed.

Lemma find_split (f : A -> bool) (l : list A) (x : A) :
  find f l = Some x ->
  exists pre post,
    l = pre ++ x :: post /\ f x = true /\ forall y, In y pre -> f y = false.
Proof.
  induction l as [| a l IH]; simpl; [discriminate |].
  destruct (f a) eqn:Fa.
  - intros [= ->]. exists [], l. simpl. intuition.
  - intros H. destruct (IH H) as (pre & post & -> & Fx & Hpre).
    exists (a :: pre), post. simpl. repeat split; auto.
    intros y [<- | Hy]; auto.
Qed.

Lemma filter_split (f : A -> bool) (l pre post : list A) (x : A) :
  filter f l = pre ++ x :: post ->
  exists pre0 post0,
    l = pre0 ++ x :: post0
    /\ filter f pre0 = pre /\ filter f post0 = post /\ f x = true.
Proof.
  revert pre. induction l as [| a l IH]; intros pre E; simpl in E.
  - destruct pre; discriminate.
  - destruct (f a) eqn:Fa.
    + destruct pre as [| b pre]; simpl in E; injection E as -> E'.
      * exists [], l. simpl. auto.
      * destruct (IH _ E') as (pre0 & post0 & -> & <- & <- & Fx).
        exists (b :: pre0), post0. simpl. rewrite Fa. auto.
    + destruct (IH _ E) as (pre0 & post0 & -> & <- & <- & Fx).
      exists (a :: pre0), post0. simpl. rewrite Fa. auto.
Qed.

Variable key : A -> Z.

Let descending (a b : A) : Z := key b - key a.

Lemma sort_nil (l : list A) : JsArray.sort descending l = [] -> l = [].
Proof.
  destruct l as [| a l]; [reflexivity |]. simpl.
  destruct (JsArray.sort descending l) as [| b t]; simpl; [discriminate |].
  destruct (descending a b <=? 0); discriminate.
Qed.

(** The head of an array sorted in descending order of [key] is the first
    element of the array with the greatest key. *)
Lemma sort_head (l : list A) (best : A) (t : list A) :
  JsArray.sort descending l = best :: t ->
  exists pre post,
    l = pre ++ best :: post
    /\ (forall y, In y pre -> key y < key best)
    /\ (forall y, In y post -> key y <= key best).
Proof.
  revert best t. induction l as [| a l IH]; intros best t E; simpl in E;
    [discriminate |].
  destruct (JsArray.sort descending l) as [| b s] eqn:Es.
  - apply sort_nil in Es. subst l. simpl in E. injection E as <- _.
    exists [], []. simpl. intuition.
  - destruct (IH b s eq_refl) as (pre & post & -> & Hpre & Hpost).
    simpl in E. unfold descending in E at 1.
    destruct (key b - key a <=? 0) eqn:C; injection E as <- _.
    + apply Z.leb_le in C. exists [], (pre ++ b :: post). simpl.
      repeat split; [intuition |].
      intros y Hy. apply in_app_or in Hy. destruct Hy as [Hy | [<- | Hy]].
      * specialize (Hpre y Hy). lia.
      * lia.
      * specialize (Hpost y Hy). lia.
    + apply Z.leb_gt in C. exists (a :: pre), post. simpl.
      repeat split; auto.
      intros y [<- | Hy]; [lia | auto].
Qed.

End ListFacts.

(** The callbacks of the resolver decide the predicates of the reference. *)

Lemma isExactMatch_spec (u : Z) (v : ShopifyVariant.t) :
  isExactMatch u v = true <-> HasExact u v.
Proof.
  unfold isExactMatch, HasExact. split.
  - destruct (ShopifyVariant.selectedOptions v) as [opts |]; [| discriminate].
    intros H. apply existsb_exists in H. destruct H as (o & Hin & Ho).
    apply andb_true_iff in Ho. destruct Ho as [Hn Hv].
    apply String.eqb_eq in Hn, Hv. exists opts, o. auto.
  - intros (opts & o & -> & Hin & Hn & Hv).
    apply existsb_exists. exists o. split; [assumption |].
    unfold isUserCountOption. rewrite Hn, Hv, !String.eqb_refl. reflexivity.
Qed.

Lemma isValidVariant_spec (u : Z) (v : ShopifyVariant.t) :
  isValidVariant u v = true <-> exists c, Qualifies u v c.
Proof.
  unfold isValidVariant, Qualifies, variantCount.
  destruct (ShopifyVariant.selectedOptions v) as [opts |].
  - destruct (find isUserCountOption opts) as [o |].
    + destruct (parseInt (SelectedOption.value o) 10) as [c |].
      * rewrite Z.leb_le. split.
        -- intros H. exists c. auto.
        -- intros (c' & [= <-] & H). exact H.
      * split; [discriminate | intros (c & H & _); discriminate].
    + split; [discriminate | intros (c & H & _); discriminate].
  - split; [discriminate | intros (c & H & _); discriminate].
Qed.

Lemma extractUserCount_count (v : ShopifyVariant.t) (c : Z) :
  variantCount v = Some c -> extractUserCount v = c.
Proof.
  unfold variantCount, extractUserCount.
  destruct (ShopifyVariant.selectedOptions v) as [opts |]; [| discriminate].
  destruct (find isUserCountOption opts) as [o |]; [| discriminate].
  now intros ->.
Qed.

(** Up to 50 users the resolver follows the three steps of the reference,
    returning [returned] of the step and variant. *)
Lemma findVariant_small (product : ShopifyProduct.t) (u : Z) :
  ShopifyProduct.variants product <> [] ->
  u <= 50 ->
  exists r v,
    Resolves (ShopifyProduct.variants product) u r v
    /\ snd (findVariantForUserCount product u) = returned r v.
Proof.
  intros Hne Hu. unfold findVariantForUserCount.
  destruct (ShopifyProduct.variants product) as [| first rest] eqn:Evs;
    [congruence |].
  set (vs := first :: rest) in *.
  replace (u >? 50) with false by (symmetry; rewrite Z.gtb_ltb; apply Z.ltb_ge; lia).
  destruct (find (isExactMatch u) vs) as [exact |] eqn:Ef.
  - exists ExactMatch, exact. split; [| reflexivity].
    apply find_split in Ef. destruct Ef as (pre & post & E & Hx & Hpre).
    constructor. exists pre, post. repeat split; auto.
    + now apply isExactMatch_spec.
    + intros v' Hin Hex. apply isExactMatch_spec in Hex.
      rewrite (Hpre v' Hin) in Hex. discriminate.
  - assert (Hnoexact : forall v', In v' vs -> ~ HasExact u v').
    { intros v' Hin Hex. apply isExactMatch_spec in Hex.
      rewrite (find_none _ _ Ef v' Hin) in Hex. discriminate. }
    destruct (JsArray.sort _ (filter (isValidVariant u) vs))
      as [| best t] eqn:Es.
    + exists FirstVariant, first. split; [| reflexivity].
      apply (sort_nil extractUserCount) in Es.
      apply (Resolves_first _ _ _ rest); auto.
      intros v' c Hin Hq.
      assert (Hv : In v' (filter (isValidVariant u) vs)).
      { apply filter_In. split; [assumption |].
        apply isValidVariant_spec. now exists c. }
      rewrite Es in Hv. destruct Hv.
    + exists ClosestBelow, best. split; [| reflexivity].
      apply (sort_head extractUserCount) in Es.
      destruct Es as (pre & post & Efil & Hpre & Hpost).
      apply filter_split in Efil.
      destruct Efil as (pre0 & post0 & E0 & <- & <- & Hbest).
      apply isValidVariant_spec in Hbest. destruct Hbest as [c Hc].
      pose proof (extractUserCount_count _ _ (proj1 Hc)) as Kc.
      constructor; [assumption |].
      exists pre0, post0, c.
      split; [exact E0 |]. split; [exact Hc |]. split.
      * intros v' c' Hin Hq.
        pose proof (extractUserCount_count _ _ (proj1 Hq)) as Kc'.
        rewrite <- Kc, <- Kc'. apply Hpre. apply filter_In.
        split; [assumption |]. apply isValidVariant_spec. now exists c'.
      * intros v' c' Hin Hq.
        pose proof (extractUserCount_count _ _ (proj1 Hq)) as Kc'.
        rewrite <- Kc, <- Kc'. apply Hpost. apply filter_In.
        split; [assumption |]. apply isValidVariant_spec. now exists c'.
Qed.

(** The reference definition determines the step and the variant. *)
Lemma Resolves_functional (vs : list ShopifyVariant.t) (u : Z)
    (r r' : Resolution) (v v' : ShopifyVariant.t) :
  Resolves vs u r v -> Resolves vs u r' v' -> r = r' /\ v = v'.
Proof.
  intros H H'.
  destruct H as [v (pre & post & E & Pv & Hpre)
                | v Hno (pre & post & c & E & Qv & Hpre & Hpost)
                | v rest Hno Hnq E];
    destruct H' as [v' (pre' & post' & E' & Pv' & Hpre')
                   | v' Hno' (pre' & post' & c' & E' & Qv' & Hpre' & Hpost')
                   | v' rest' Hno' Hnq' E'].
  - split; [reflexivity |]. rewrite E in E'.
    destruct (split_compare _ _ _ _ _ _ E')
      as [(_ & -> & _) | [(m & -> & _) | (m & -> & _)]].
    + reflexivity.
    + exfalso. apply (Hpre' v); [apply in_elt | assumption].
    + exfalso. apply (Hpre v'); [apply in_elt | assumption].
  - exfalso. apply (Hno' v); [rewrite E; apply in_elt | assumption].
  - exfalso. apply (Hno' v); [rewrite E; apply in_elt | assumption].
  - exfalso. apply (Hno v'); [rewrite E'; apply in_elt | assumption].
  - split; [reflexivity |]. rewrite E in E'.
    destruct (split_compare _ _ _ _ _ _ E')
      as [(_ & -> & _) | [(m & -> & ->) | (m & -> & ->)]].
    + reflexivity.
    + exfalso.
      assert (c < c') by (apply (Hpre' v c); [apply in_elt | assumption]).
      assert (c' <= c)
        by (apply (Hpost v' c'); [apply in_elt | assumption]).
      lia.
    + exfalso.
      assert (c' < c) by (apply (Hpre v' c'); [apply in_elt | assumption]).
      assert (c <= c')
        by (apply (Hpost' v c); [apply in_elt | assumption]).
      lia.
  - exfalso. apply (Hnq' v c); [rewrite E; apply in_elt | assumption].
  - exfalso. apply (Hno v'); [rewrite E'; apply in_elt | assumption].
  - exfalso. apply (Hnq v' c'); [rewrite E'; apply in_elt | assumption].
  - split; [reflexivity | congruence].
Qed.

Lemma Resolves_In (vs : list ShopifyVariant.t) (u : Z) (r : Resolution)
    (v : ShopifyVariant.t) :
  Resolves vs u r v -> In v vs.
Proof.
  intros [v0 (pre & post & -> & _)
         | v0 _ (pre & post & c & -> & _)
         | v0 rest _ _ ->]; try apply in_elt. now left.
Qed.

Lemma toString_parseInt (u : Z) :
  1 <= u <= 50 -> parseInt (toString u) 10 = Some u.
Proof.
  intros Hu.
  assert (Hall :
    forallb (fun n => match parseInt (toString (Z.of_nat n)) 10 with
                      | Some v => v =? Z.of_nat n
                      | None => false
                      end) (seq 1 50) = true) by (vm_compute; reflexivity).
  rewrite forallb_forall in Hall.
  specialize (Hall (Z.to_nat u)).
  rewrite Z2Nat.id in Hall by lia.
  destruct (parseInt (toString u) 10) as [v |].
  - f_equal. apply Z.eqb_eq. apply Hall. apply in_seq. lia.
  - discriminate Hall. apply in_seq. lia.
Qed.

(** A variant without a usable "User Count" option: the options are
    missing, or none is named "User Count", or none so named parses. *)
Definition Unusable (v : ShopifyVariant.t) : Prop :=
  forall opts o,
    ShopifyVariant.selectedOptions v = Some opts ->
    In o opts ->
    SelectedOption.name o = "User Count" ->
    parseInt (SelectedOption.value o) 10 = None.

Lemma Unusable_not_Qualifies (u : Z) (v : ShopifyVariant.t) (c : Z) :
  Unusable v -> ~ Qualifies u v c.
Proof.
  intros Hun [Hc _]. unfold variantCount in Hc.
  destruct (ShopifyVariant.selectedOptions v) as [opts |] eqn:Eo; [| discriminate].
  destruct (find isUserCountOption opts) as [o |] eqn:Ef; [| discriminate].
  apply find_some in Ef. destruct Ef as [Hin Hn]. apply String.eqb_eq in Hn.
  rewrite (Hun opts o Eo Hin Hn) in Hc. discriminate.
Qed.

Lemma Unusable_not_HasExact (u : Z) (v : ShopifyVariant.t) :
  1 <= u <= 50 -> Unusable v -> ~ HasExact u v.
Proof.
  intros Hu Hun (opts & o & Eo & Hin & Hn & Hv).
  specialize (Hun opts o Eo Hin Hn).
  rewrite Hv, (toString_parseInt u Hu) in Hun. discriminate.
Qed.

(** C2 (amended): for a product with at least one variant and 1 <= u <= 50
    the resolver agrees with the reference definition (first exact match;
    else the greatest count at most u, first in source order; else the first
    variant), except that the closest-match step yields null when the
    variant it selects has the empty string for id.  Variants without a
    usable "User Count" option are never chosen by the first two steps and
    remain the fallback. *)
Theorem resolver_refines_reference (product : ShopifyProduct.t) (u : Z) :
  ShopifyProduct.variants product <> [] ->
  1 <= u <= 50 ->
  (exists r v,
      Resolves (ShopifyProduct.variants product) u r v
      /\ snd (findVariantForUserCount product u) = returned r v)
  /\ (forall r v,
        Resolves (ShopifyProduct.variants product) u r v ->
        Unusable v -> r = FirstVariant)
  /\ (Forall Unusable (ShopifyProduct.variants product) ->
      snd (findVariantForUserCount product u)
      = option_map ShopifyVariant.id (hd_error (ShopifyProduct.variants product))).
Proof.
  intros Hne Hu.
  assert (Hsteps : forall r v,
             Resolves (ShopifyProduct.variants product) u r v ->
             Unusable v -> r = FirstVariant).
  { intros r v HR Hun.
    destruct HR as [v (pre & post & _ & Pv & _)
                   | v _ (pre & post & c & _ & Qv & _)
                   | v rest _ _ _].
    - exfalso. exact (Unusable_not_HasExact u v Hu Hun Pv).
    - exfalso. exact (Unusable_not_Qualifies u v c Hun Qv).
    - reflexivity. }
  destruct (findVariant_small product u Hne) as (r & v & HR & E); [lia |].
  split; [exists r, v; auto |]. split; [exact Hsteps |].
  intros Hall. rewrite E.
  assert (Hv : Unusable v).
  { rewrite Forall_forall in Hall. apply Hall. exact (Resolves_In _ _ _ _ HR). }
  pose proof (Hsteps r v HR Hv) as ->.
  inversion HR as [| | v0 rest _ _ Evs]; subst. rewrite Evs. reflexivity.
Qed.

Definition countVariant (id count : string) : ShopifyVariant.t :=
  ShopifyVariant.mk id (count ++ " users")%string "800.00" true
                    (Some [SelectedOption.mk "User Count" count]).

(** A product whose only variant carries the empty string for id. *)
Definition blankIdProduct : ShopifyProduct.t :=
  ShopifyProduct.mk "gid://shopify/Product/1" "Starter" ""
                    (Some "starter-signature") [countVariant "" "1"].

(** C2, as stated, fails: for 5 users the reference selects the variant of
    count 1, whose id is the empty string, and the resolver returns null. *)
Lemma resolver_not_always_reference_id :
  Resolves (ShopifyProduct.variants blankIdProduct) 5 ClosestBelow
           (countVariant "" "1")
  /\ snd (findVariantForUserCount blankIdProduct 5) = None
  /\ ~ (exists r v,
          Resolves (ShopifyProduct.variants blankIdProduct) 5 r v
          /\ snd (findVariantForUserCount blankIdProduct 5) = returnsId v).
Proof.
  split; [| split].
  - constructor.
    + intros v' [<- | []] (opts & o & [= <-] & [<- | []] & _ & Hv).
      discriminate Hv.
    + exists [], [], 1. repeat split; simpl; try tauto; try lia.
  - reflexivity.
  - intros (r & v & _ & H). discriminate H.
Qed.

Definition tieredProduct : ShopifyProduct.t :=
  ShopifyProduct.mk "gid://shopify/Product/2" "Premium" ""
                    (Some "premium-signature")
                    [countVariant "v10" "10"; countVariant "v20" "20";
                     countVariant "v40" "40"; countVariant "v20b" "20"].

Lemma resolver_refines_reference_witness :
  exists r v,
    Resolves (ShopifyProduct.variants tieredProduct) 35 r v
    /\ snd (findVariantForUserCount tieredProduct 35) = returned r v.
Proof.
  destruct (resolver_refines_reference tieredProduct 35) as (H & _).
  - discriminate.
  - lia.
  - exact H.
Defined.

(** The resolution scenarios of the specification. *)

Example exact_match_priority :
  snd (findVariantForUserCount
         (ShopifyProduct.mk "gid://shopify/Product/3" "Essential" "" None
            [countVariant "v20" "20"; countVariant "v25" "25"]) 25)
  = Some "v25"%string.
Proof. reflexivity. Qed.

Example closest_match_below :
  snd (findVariantForUserCount
         (ShopifyProduct.mk "gid://shopify/Product/3" "Essential" "" None
            [countVariant "v10" "10"; countVariant "v20" "20";
             countVariant "v40" "40"]) 35)
  = Some "v20"%string.
Proof. reflexivity. Qed.

Example closest_match_tie_in_source_order :
  snd (findVariantForUserCount tieredProduct 35) = Some "v20"%string
  /\ snd (findVariantForUserCount tieredProduct 9) = Some "v10"%string.
Proof. split; reflexivity. Qed.

Example no_variant_at_ten_users :
  findVariantForUserCount noVariantProduct 10
  = ([console_error "Invalid product or no variants available"
                    (ProductArg noVariantProduct)], None).
Proof. reflexivity. Qed.

(* ------------------------------------------------------------------ *)
(** ** Failure of the resolver and the caller *)

Lemma truthy_iff (s : string) : JsString.truthy s = true <-> s <> "".
Proof.
  unfold JsString.truthy. destruct (String.eqb_spec s ""); simpl; split;
    congruence.
Qed.

Lemma findVariant_no_variant (product : ShopifyProduct.t) (u : Z) :
  ShopifyProduct.variants product = [] ->
  findVariantForUserCount product u =
    ([console_error "Invalid product or no variants available"
                    (ProductArg product)], None).
Proof. intros E. unfold findVariantForUserCount. now rewrite E. Qed.

(** With non-empty variant ids every product with a variant resolves, to a
    custom-quote id or to the id of one of its variants. *)
Lemma findVariant_some (product : ShopifyProduct.t) (u : Z) :
  Forall (fun v => ShopifyVariant.id v <> "") (ShopifyProduct.variants product) ->
  ShopifyProduct.variants product <> [] ->
  exists id,
    snd (findVariantForUserCount product u) = Some id
    /\ id <> ""
    /\ (In id quoteVariants
        \/ exists v, In v (ShopifyProduct.variants product)
                     /\ ShopifyVariant.id v = id).
Proof.
  intros Hids Hne. rewrite Forall_forall in Hids.
  destruct (Z_gt_le_dec u 50) as [Hu | Hu].
  - destruct (findVariant_large product u Hne Hu) as [line E]. rewrite E.
    eexists. split; [reflexivity |].
    pose proof (quoteVariantFor_in (getDisplayTitle (quoteOption product))) as Hin.
    split; [| left; exact Hin].
    destruct Hin as [<- | [<- | [<- | []]]]; discriminate.
  - destruct (findVariant_small product u Hne Hu) as (r & v & HR & E).
    pose proof (Resolves_In _ _ _ _ HR) as Hin.
    pose proof (Hids v Hin) as Hid.
    exists (ShopifyVariant.id v). split; [| split; [exact Hid | right; eauto]].
    rewrite E. destruct r; simpl; try reflexivity.
    apply truthy_iff in Hid. now rewrite Hid.
Qed.

(** The closest-match step applies and selects a variant whose id is the
    empty string. *)
Definition closestHasNoId (product : ShopifyProduct.t) (u : Z) : Prop :=
  u <= 50
  /\ exists v, Resolves (ShopifyProduct.variants product) u ClosestBelow v
               /\ ShopifyVariant.id v = ""%string.

Lemma findVariant_none_iff (product : ShopifyProduct.t) (u : Z) :
  ShopifyProduct.variants product <> [] ->
  snd (findVariantForUserCount product u) = None <-> closestHasNoId product u.
Proof.
  intros Hne. split.
  - intros Hnone. destruct (Z_gt_le_dec u 50) as [Hu | Hu].
    + destruct (findVariant_large product u Hne Hu) as [line E].
      rewrite E in Hnone. discriminate.
    + destruct (findVariant_small product u Hne Hu) as (r & v & HR & E).
      rewrite E in Hnone. split; [exact Hu |]. exists v.
      destruct r; cbn in Hnone; try discriminate.
      split; [exact HR |].
      destruct (JsString.truthy (ShopifyVariant.id v)) eqn:Et;
        [discriminate |].
      unfold JsString.truthy in Et. apply negb_false_iff in Et.
      now apply String.eqb_eq.
  - intros (Hu & v & HR & Hid).
    destruct (findVariant_small product u Hne Hu) as (r' & v' & HR' & E).
    destruct (Resolves_functional _ _ _ _ _ _ HR' HR) as [-> ->].
    rewrite E. cbn. now rewrite Hid.
Qed.

Lemma findVariant_some_id (product : ShopifyProduct.t) (u : Z) :
  ShopifyProduct.variants product <> [] ->
  ~ closestHasNoId product u ->
  exists id,
    snd (findVariantForUserCount product u) = Some id
    /\ (In id quoteVariants
        \/ exists v, In v (ShopifyProduct.variants product)
                     /\ ShopifyVariant.id v = id).
Proof.
  intros Hne Hclosest.
  destruct (snd (findVariantForUserCount product u)) as [id |] eqn:E;
    [| exfalso; apply Hclosest; now apply findVariant_none_iff].
  exists id. split; [reflexivity |].
  destruct (Z_gt_le_dec u 50) as [Hu | Hu].
  - destruct (findVariant_large product u Hne Hu) as [line El].
    rewrite El in E. injection E as <-. left. apply quoteVariantFor_in.
  - destruct (findVariant_small product u Hne Hu) as (r & v & HR & Es).
    right. exists v. split; [exact (Resolves_In _ _ _ _ HR) |].
    rewrite Es in E. destruct r; cbn in E;
      try destruct (JsString.truthy (ShopifyVariant.id v)); congruence.
Qed.

(** C5 (amended): the resolver returns null exactly when the product has
    no variant or when, for at most 50 users and without an exact match,
    the variant the closest-match step selects has the empty string for id;
    for every other product and user count it returns an identifier, one of
    the three custom-quote ids or the id of a variant of the product.  On a
    product without variants the handler of "Get Started" never calls the
    cart service, does not navigate, reports an error and re-enables
    submission. *)
Theorem resolver_fails_iff_no_variant
    (createCart : string -> Z -> list (string * string) -> string -> CartResult)
    (product : ShopifyProduct.t) (u : Z) :
  (snd (findVariantForUserCount product u) = None
   <-> ShopifyProduct.variants product = [] \/ closestHasNoId product u)
  /\ (ShopifyProduct.variants product <> [] ->
      ~ closestHasNoId product u ->
      exists id,
        snd (findVariantForUserCount product u) = Some id
        /\ (In id quoteVariants
            \/ exists v, In v (ShopifyProduct.variants product)
                         /\ ShopifyVariant.id v = id))
  /\ (ShopifyProduct.variants product = [] ->
      forall st ps,
        products st = Some ps ->
        find (fun p => (ShopifyProduct.id p =? selectedAnimation st)%string) ps
        = Some product ->
        let out := handleGetStarted createCart st in
        cartCalls out = []
        /\ location out = None
        /\ (exists message, error (finalState out) = Some ("Error: " ++ message)%string)
        /\ isSubmitting (finalState out) = false).
Proof.
  split; [| split].
  - destruct (ShopifyProduct.variants product) as [| first rest] eqn:Evs.
    + rewrite (findVariant_no_variant product u Evs). cbn. tauto.
    + assert (Hne : ShopifyProduct.variants product <> [])
        by (rewrite Evs; discriminate).
      rewrite (findVariant_none_iff product u Hne).
      split; [auto | intros [H | H]; [discriminate H | exact H]].
  - apply findVariant_some_id.
  - intros Hempty st ps Hps Hfind out. subst out.
    unfold handleGetStarted, tryGetStarted.
    destruct (selectedPackage (setError None (setIsSubmitting true st))).
    + cbn [products setError setIsSubmitting selectedAnimation userCount].
      rewrite Hps, Hfind.
      rewrite (findVariant_no_variant product _ Hempty).
      cbn. repeat split; eauto.
    + cbn. repeat split; eauto.
Qed.

(** C5, as stated, fails: a product can have a variant and still get null,
    when the variant the closest-match step selects has an empty id. *)
Lemma resolver_fails_with_variant :
  ShopifyProduct.variants blankIdProduct <> []
  /\ snd (findVariantForUserCount blankIdProduct 5) = None
  /\ ~ (forall product u,
          snd (findVariantForUserCount product u) = None
          <-> ShopifyProduct.variants product = []).
Proof.
  split; [discriminate |]. split; [reflexivity |].
  intros H. destruct (H blankIdProduct 5) as [H1 _].
  specialize (H1 eq_refl). discriminate H1.
Qed.

Lemma resolver_fails_iff_no_variant_witness :
  (snd (findVariantForUserCount blankIdProduct 5) = None
   <-> ShopifyProduct.variants blankIdProduct = []
       \/ closestHasNoId blankIdProduct 5)
  /\ exists id, snd (findVariantForUserCount tieredProduct 35) = Some id.
Proof.
  split.
  - exact (proj1 (resolver_fails_iff_no_variant
                    (fun _ _ _ _ => CartThrows "offline") blankIdProduct 5)).
  - destruct (resolver_fails_iff_no_variant
                (fun _ _ _ _ => CartThrows "offline") tieredProduct 35)
      as (_ & H2 & _).
    destruct H2 as (id & E & _); [discriminate | | eauto].
    intros (_ & v & HR & Hid).
    apply Resolves_In in HR.
    destruct HR as [<- | [<- | [<- | [<- | []]]]]; discriminate Hid.
Defined.

(* ------------------------------------------------------------------ *)
(** ** Catalog normalizer *)

(** C8: from a product list the normalizer makes one pricing tier per
    product, in source order; a tier takes the id, title, description and
    handle of its product and, as base price, the parse of the price string
    of the product's first variant, or 0 when the product has no variant. *)
Theorem processProducts_one_tier_per_product
    (st : State) (ps : list ShopifyProduct.t) :
  let tiers := animationPackages (processProducts (setProducts (Some ps) st)) in
  List.length tiers = List.length ps
  /\ (forall i, nth_error tiers i = option_map formatPackage (nth_error ps i))
  /\ (forall product,
        let tier := formatPackage product in
        PricingOption.id tier = ShopifyProduct.id product
        /\ PricingOption.name tier = ShopifyProduct.title product
        /\ PricingOption.description tier = ShopifyProduct.description product
        /\ PricingOption.handle tier = ShopifyProduct.handle product
        /\ PricingOption.price tier =
             match ShopifyProduct.variants product with
             | first :: _ => JsFloat.parseFloat (ShopifyVariant.price first)
             | [] => ofZ 0
             end).
Proof.
  cbn. split; [apply length_map |]. split.
  - intros i. apply nth_error_map.
  - intros product. repeat split.
Qed.

(** Without a product list the normalizer leaves the tiers as they are. *)
Lemma processProducts_no_products (st : State) :
  products st = None -> processProducts st = st.
Proof. intros E. unfold processProducts. now rewrite E. Qed.

(* ------------------------------------------------------------------ *)
(** ** Price calculator *)

Lemma calculateTotal_no_tier (st : State) :
  selectedPackage st = None ->
  totalPrice (calculateTotal st) = ofZ 0
  /\ isCustomPricing (calculateTotal st) = isCustomPricing st.
Proof. intros E. unfold calculateTotal. rewrite E. split; reflexivity. Qed.


Definition starterSignature : ShopifyProduct.t :=
  ShopifyProduct.mk "gid://shopify/Product/1" "Starter" "Animated logo"
                    (Some "starter-signature")
                    [ShopifyVariant.mk "v1" "1 user" "800.00" true
                       (Some [SelectedOption.mk "User Count" "1"])].

(** The state after the catalog arrived and the Starter tier was chosen. *)
Definition starterChosen : State :=
  setSelectedAnimation "gid://shopify/Product/1"
    (processProducts
       (fetchProducts None (FetchOk [starterSignature]) (initialState None))).


(* ------------------------------------------------------------------ *)
(** ** Runs of the component *)

(** What can happen to a mounted component: the effects run and the user
    acts. *)
Inductive Event : Type :=
| InitialProductsChanged (initialProducts : option (list ShopifyProduct.t))
                         (response : FetchResult)
| ProductsChanged
| SelectionChanged
| SelectPackage (id : string)
| ClickMinus
| ClickPlus
| TypeUserCount (value : string)
| ClickGetStarted
    (createCart : string -> Z -> list (string * string) -> string -> CartResult).

Definition step (st : State) (e : Event) : State :=
  match e with
  | InitialProductsChanged initialProducts response =>
      fetchProducts initialProducts response st
  | ProductsChanged => processProducts st
  | SelectionChanged => calculateTotal st
  | SelectPackage id => setSelectedAnimation id st
  | ClickMinus => clickDecrement st
  | ClickPlus => clickIncrement st
  | TypeUserCount value => changeUserCount value st
  | ClickGetStarted createCart => finalState (handleGetStarted createCart st)
  end.

Definition run (st : State) (events : list Event) : State :=
  fold_left step events st.

(** The packages the radio group lists: all but the Essential ones. *)
Definition listedPackages (st : State) : list PricingOption.t :=
  filter (fun opt => negb (getDisplayTitle opt =? "Essential")%string)
         (animationPackages st).

(** Whether an event can happen in a state.  Effects may always run; the
    controls exist once the loading view is gone, a package can be selected
    when it is listed, and the "Get Started" button is disabled while
    submitting and while nothing is selected. *)
Definition offered (st : State) (e : Event) : bool :=
  match e with
  | InitialProductsChanged _ _ | ProductsChanged | SelectionChanged => true
  | SelectPackage id =>
      negb (loading st)
      && existsb (fun opt => (PricingOption.id opt =? id)%string)
                 (listedPackages st)
  | ClickMinus | ClickPlus | TypeUserCount _ => negb (loading st)
  | ClickGetStarted _ =>
      negb (loading st)
      && negb (isSubmitting st || negb (JsString.truthy (selectedAnimation st)))
  end.

(** Every event of the list is offered when its turn comes. *)
Fixpoint allOffered (st : State) (events : list Event) : bool :=
  match events with
  | [] => true
  | e :: events' => offered st e && allOffered (step st e) events'
  end.

Inductive Reachable : State -> Prop :=
| Reachable_init initialProducts : Reachable (initialState initialProducts)
| Reachable_step st e :
    Reachable st -> offered st e = true -> Reachable (step st e).

Lemma Reachable_run (initialProducts : option (list ShopifyProduct.t))
    (events : list Event) :
  allOffered (initialState initialProducts) events = true ->
  Reachable (run (initialState initialProducts) events).
Proof.
  unfold run. generalize (Reachable_init initialProducts).
  generalize (initialState initialProducts).
  induction events as [| e events IH]; intros st Hst Hall; simpl;
    [assumption |].
  simpl in Hall. apply andb_true_iff in Hall. destruct Hall as [He Hall].
  apply IH; [now constructor | assumption].
Qed.

(** The handler of "Get Started" writes [isSubmitting] and [error] only. *)
Lemma handleGetStarted_frame
    (createCart : string -> Z -> list (string * string) -> string -> CartResult)
    (st : State) :
  let st' := finalState (handleGetStarted createCart st) in
  products st' = products st
  /\ animationPackages st' = animationPackages st
  /\ selection st' = selection st
  /\ loading st' = loading st
  /\ isSubmitting st' = false.
Proof.
  unfold handleGetStarted.
  destruct (tryGetStarted createCart (setError None (setIsSubmitting true st)))
    as [[logs calls] [message | checkoutUrl]]; cbn; repeat split.
Qed.

(** The catalog is fetched and shows the Starter tier, the visitor picks the
    tier and types 51 users; then the page is handed an empty product list. *)
Definition catalogWithdrawn : list Event :=
  [InitialProductsChanged None (FetchOk [starterSignature]); ProductsChanged;
   SelectPackage "gid://shopify/Product/1"; SelectionChanged;
   TypeUserCount "51"; SelectionChanged;
   InitialProductsChanged (Some []) (FetchOk []); ProductsChanged].

(** C4: the calculator sets the total to 0 when no tier is selected but
    leaves the custom-quote flag as it was.  In the state reached by
    [catalogWithdrawn] no tier matches the selected id and the flag is true;
    the calculator then yields total 0 with the flag still true, and the
    total panel reads "Custom Quote". *)
Theorem calculateTotal_no_tier_keeps_flag :
  let st := run (initialState None) catalogWithdrawn in
  Reachable st
  /\ loading st = false
  /\ selectedPackage st = None
  /\ isCustomPricing st = true
  /\ totalPrice (calculateTotal st) = ofZ 0
  /\ isCustomPricing (calculateTotal st) = true
  /\ totalDisplay (calculateTotal st) = CustomQuote.
Proof.
  cbv zeta. split; [apply Reachable_run; reflexivity |]. repeat split.
Qed.

(* ------------------------------------------------------------------ *)
(** ** Failed checkout *)

(** C9: when "Get Started" ends without a checkout (the cart service threw,
    or the tier, product or variant was not found), the selected tier, the
    user count, the total and the custom-quote flag are what they were, an
    error message is set, and [isSubmitting] is false again; when the cart
    service was called, the message is the one it threw. *)
Theorem failed_checkout_keeps_selection
    (createCart : string -> Z -> list (string * string) -> string -> CartResult)
    (st : State) :
  let out := handleGetStarted createCart st in
  location out = None ->
  selection (finalState out) = selection st
  /\ isSubmitting (finalState out) = false
  /\ (exists message,
         error (finalState out) = Some ("Error: " ++ message)%string)
  /\ (forall call, In call (cartCalls out) ->
        exists message,
          createCart (cc_variantId call) (cc_quantity call)
                     (cc_customAttributes call) (cc_sellingPlanId call)
          = CartThrows message
          /\ error (finalState out) = Some ("Error: " ++ message)%string).
Proof.
  intros out Hloc.
  destruct (handleGetStarted_frame createCart st) as (_ & _ & Hsel & _ & Hsub).
  fold out in Hsel, Hsub.
  split; [exact Hsel |]. split; [exact Hsub |].
  subst out. revert Hloc. unfold handleGetStarted, tryGetStarted.
  set (st1 := setError None (setIsSubmitting true st)).
  destruct (selectedPackage st1); [| cbn; intros _; split; [eauto | tauto]].
  destruct (match products st1 with
            | Some ps =>
                find (fun p => (ShopifyProduct.id p =? selectedAnimation st1)%string) ps
            | None => None
            end) as [product |]; [| cbn; intros _; split; [eauto | tauto]].
  destruct (findVariantForUserCount product (userCount st1)) as [logs [vid |]];
    [| cbn; intros _; split; [eauto | tauto]].
  destruct (JsString.truthy vid); [| cbn; intros _; split; [eauto | tauto]].
  destruct (createCart vid 1 [("User Count"%string, toString (userCount st1))]
                       sellingPlanId) as [url | message] eqn:Ecart;
    cbn; [discriminate |].
  intros _. split; [eauto |].
  intros call [<- | []]. cbn. eauto.
Qed.

Lemma failed_checkout_keeps_selection_witness :
  let out := handleGetStarted (fun _ _ _ _ => CartThrows "Network error")
                              (calculateTotal starterChosen) in
  selection (finalState out) = ("gid://shopify/Product/1"%string, 1, ofZ 850, false)
  /\ isSubmitting (finalState out) = false
  /\ error (finalState out) = Some "Error: Network error"%string
  /\ List.length (cartCalls out) = 1%nat.
Proof.
  cbv zeta.
  destruct (failed_checkout_keeps_selection
              (fun _ _ _ _ => CartThrows "Network error")
              (calculateTotal starterChosen)) as (H1 & H2 & _ & _).
  - reflexivity.
  - split; [exact H1 |]. split; [exact H2 |]. split; reflexivity.
Defined.

(* ------------------------------------------------------------------ *)
(** ** The user count *)

Lemma changeUserCount_lower_bound (value : string) (st : State) :
  1 <= userCount st -> 1 <= userCount (changeUserCount value st).
Proof.
  intros H. unfold changeUserCount.
  destruct (parseInt value 0) as [v |]; [cbn; lia | exact H].
Qed.

(** C10: the user count starts at 1, and the minus button, the plus button
    and the numeric input keep it at least 1, as does everything else that
    happens to the component: it is at least 1 in every reachable state. *)
Theorem userCount_at_least_one (st : State) :
  Reachable st -> 1 <= userCount st.
Proof.
  induction 1 as [initialProducts | st e Hst IH _]; [cbn; lia |].
  destruct e as [initialProducts response | | | id | | | value | createCart];
    cbn [step].
  - unfold fetchProducts.
    destruct initialProducts; [exact IH |]. destruct response; exact IH.
  - unfold processProducts. destruct (products st); exact IH.
  - unfold calculateTotal.
    destruct (selectedPackage st); [| exact IH].
    destruct (userCount st >? 50); exact IH.
  - exact IH.
  - cbn. lia.
  - cbn. lia.
  - now apply changeUserCount_lower_bound.
  - destruct (handleGetStarted_frame createCart st) as (_ & _ & Hsel & _).
    unfold selection in Hsel. injection Hsel as _ Hu _ _.
    rewrite Hu. exact IH.
Qed.

Lemma userCount_at_least_one_witness :
  1 <= userCount (run (initialState None)
                      [InitialProductsChanged None (FetchThrows "API error: 500");
                       TypeUserCount "-7"; ClickMinus; ClickMinus; ClickPlus;
                       TypeUserCount "abc"; TypeUserCount "0"; ClickMinus]).
Proof.
  apply userCount_at_least_one. apply Reachable_run. reflexivity.
Defined.

(* ================================================================== *)
(** * Further properties of the component *)

(** ** Decimal strings of integers read back by [parseInt] *)

From Stdlib Require Import Decimal DecimalPos DecimalZ.

(** The value of a sequence of decimal digits read after [acc]. *)
Fixpoint digitsValue (d : uint) (acc : Z) : Z :=
  match d with
  | Nil => acc
  | D0 l => digitsValue l (10 * acc)
  | D1 l => digitsValue l (10 * acc + 1)
  | D2 l => digitsValue l (10 * acc + 2)
  | D3 l => digitsValue l (10 * acc + 3)
  | D4 l => digitsValue l (10 * acc + 4)
  | D5 l => digitsValue l (10 * acc + 5)
  | D6 l => digitsValue l (10 * acc + 6)
  | D7 l => digitsValue l (10 * acc + 7)
  | D8 l => digitsValue l (10 * acc + 8)
  | D9 l => digitsValue l (10 * acc + 9)
  end.

Lemma parseDigits_string_of_uint (d : uint) (acc : Z) :
  parseDigits 10 (NilEmpty.string_of_uint d) (Some acc)
  = Some (digitsValue d acc).
Proof.
  revert acc. induction d; intros acc; cbn [NilEmpty.string_of_uint digitsValue];
    [reflexivity | ..];
    (cbn [parseDigits];
     match goal with
     | |- context [digitValue ?c] =>
         let v := eval vm_compute in (digitValue c) in
         change (digitValue c) with v
     end;
     cbv iota;
     match goal with
     | |- context [?k <? 10] =>
         let b := eval vm_compute in (k <? 10) in
         change (k <? 10) with b
     end;
     cbv iota; rewrite IHd; do 2 f_equal; lia).
Qed.

Lemma parseDigits_start (d : uint) :
  d <> Nil ->
  parseDigits 10 (NilEmpty.string_of_uint d) None = Some (digitsValue d 0).
Proof.
  intros Hd. destruct d; [congruence | ..];
    cbn [NilEmpty.string_of_uint digitsValue parseDigits];
    (match goal with
     | |- context [digitValue ?c] =>
         let v := eval vm_compute in (digitValue c) in
         change (digitValue c) with v
     end;
     cbv iota;
     match goal with
     | |- context [?k <? 10] =>
         let b := eval vm_compute in (k <? 10) in
         change (k <? 10) with b
     end;
     cbv iota; apply parseDigits_string_of_uint).
Qed.

Lemma of_uint_acc_digitsValue (d : uint) (acc : positive) :
  Z.pos (Pos.of_uint_acc d acc) = digitsValue d (Z.pos acc).
Proof.
  revert acc. induction d; intros acc; cbn [Pos.of_uint_acc digitsValue];
    [reflexivity | ..]; rewrite IHd; f_equal; lia.
Qed.

Lemma of_uint_digitsValue (d : uint) : Z.of_uint d = digitsValue d 0.
Proof.
  unfold Z.of_uint. induction d; cbn [Pos.of_uint digitsValue];
    [reflexivity | exact IHd | ..];
    cbn [Z.of_N]; rewrite of_uint_acc_digitsValue; reflexivity.
Qed.

Lemma parseInt_digit_string (d : uint) (radix : Z) :
  d <> Nil -> radix = 0 \/ radix = 10 ->
  parseInt (NilEmpty.string_of_uint d) radix = Some (digitsValue d 0)
  /\ parseInt (String "-" (NilEmpty.string_of_uint d)) radix
     = Some (- digitsValue d 0).
Proof.
  intros Hd Hr. pose proof (parseDigits_start d Hd) as Hp.
  assert (Hhex : stripHexPrefix (NilEmpty.string_of_uint d) = None).
  { destruct d as [| l | l | l | l | l | l | l | l | l | l]; try reflexivity.
    destruct l; reflexivity. }
  unfold parseInt.
  destruct d; [congruence | ..]; cbn [NilEmpty.string_of_uint] in *;
    cbn [JsString.trimStart];
    repeat match goal with
           | |- context [JsString.isWhiteSpace ?c] =>
               let v := eval vm_compute in (JsString.isWhiteSpace c) in
               change (JsString.isWhiteSpace c) with v
           end;
    cbv beta iota; rewrite Hhex;
    destruct Hr as [-> | ->];
    cbn [Z.eqb Pos.eqb orb andb Z.leb Z.compare Pos.compare Pos.compare_cont];
    cbv beta iota; rewrite Hp; split; f_equal; lia.
Qed.

(** [Number.parseInt] reads back what [toString] prints, with radix 10
    and with the radix left out. *)
Lemma parseInt_toString (n : Z) (radix : Z) :
  radix = 0 \/ radix = 10 -> parseInt (toString n) radix = Some n.
Proof.
  intros Hr. unfold toString, Z.to_int. destruct n as [| p | p].
  - destruct Hr as [-> | ->]; reflexivity.
  - pose proof (Unsigned.to_uint_nonnil p) as Hnil.
    replace (NilZero.string_of_int (Pos (Pos.to_uint p)))
      with (NilEmpty.string_of_uint (Pos.to_uint p))
      by (cbn; now destruct (Pos.to_uint p)).
    rewrite (proj1 (parseInt_digit_string _ radix Hnil Hr)).
    rewrite <- of_uint_digitsValue. unfold Z.of_uint.
    now rewrite Unsigned.of_to.
  - pose proof (Unsigned.to_uint_nonnil p) as Hnil.
    replace (NilZero.string_of_int (Neg (Pos.to_uint p)))
      with (String "-" (NilEmpty.string_of_uint (Pos.to_uint p)))
      by (cbn; now destruct (Pos.to_uint p)).
    rewrite (proj2 (parseInt_digit_string _ radix Hnil Hr)).
    rewrite <- of_uint_digitsValue. unfold Z.of_uint.
    now rewrite Unsigned.of_to.
Qed.

(** X1: a variant whose "User Count" option (the first so named) holds the
    decimal string of a safe integer u counts u users: [extractUserCount]
    returns u, the variant is an exact match for u, and the closest-match
    filter keeps it for exactly the requests of u users or more. *)
Theorem exact_option_counts_its_users
    (u : Z) (v : ShopifyVariant.t) (opts : list SelectedOption.t)
    (o : SelectedOption.t) :
  isSafeInteger u ->
  ShopifyVariant.selectedOptions v = Some opts ->
  find isUserCountOption opts = Some o ->
  SelectedOption.value o = toString u ->
  extractUserCount v = u
  /\ isExactMatch u v = true
  /\ (forall requested,
        isSafeInteger requested ->
        isValidVariant requested v = (u <=? requested)).
Proof.
  intros _ Hopts Hfind Hval.
  pose proof (parseInt_toString u 10 (or_intror eq_refl)) as Hparse.
  unfold extractUserCount, isExactMatch, isValidVariant.
  rewrite Hopts, Hfind, Hval, Hparse. repeat split.
  apply existsb_exists. exists o.
  apply find_some in Hfind. destruct Hfind as [Hin Hname].
  split; [exact Hin |]. rewrite Hname, Hval. simpl. apply String.eqb_refl.
Qed.

Lemma exact_option_counts_its_users_witness :
  extractUserCount (countVariant "v25" "25") = 25
  /\ isExactMatch 25 (countVariant "v25" "25") = true
  /\ isValidVariant 24 (countVariant "v25" "25") = false.
Proof.
  destruct (exact_option_counts_its_users 25 (countVariant "v25" "25")
              [SelectedOption.mk "User Count" "25"]
              (SelectedOption.mk "User Count" "25")) as (H1 & H2 & H3);
    [unfold isSafeInteger, MAX_SAFE_INTEGER; lia | reflexivity ..|].
  split; [exact H1 |]. split; [exact H2 |].
  apply (H3 24). unfold isSafeInteger, MAX_SAFE_INTEGER. lia.
Defined.

(* ------------------------------------------------------------------ *)
(** ** The user count controls *)

Lemma changeUserCount_toString (n : Z) (st : State) :
  changeUserCount (toString n) st = setUserCount (Z.max 1 n) st.
Proof.
  unfold changeUserCount.
  now rewrite (parseInt_toString n 0 (or_introl eq_refl)).
Qed.

(** X2: typing the decimal form of a safe integer n into the user count
    input sets the count to max(1, n) and changes nothing else; the [max]
    of the input element puts no upper limit on it. *)
Theorem changeUserCount_decimal (n : Z) (st : State) :
  isSafeInteger n ->
  changeUserCount (toString n) st = setUserCount (Z.max 1 n) st.
Proof. intros _. apply changeUserCount_toString. Qed.

Lemma changeUserCount_decimal_witness :
  userCount (changeUserCount "120" (initialState None)) = 120
  /\ userCount (changeUserCount "-3" (initialState None)) = 1.
Proof.
  split.
  - change "120"%string with (toString 120).
    rewrite changeUserCount_decimal;
      [reflexivity | unfold isSafeInteger, MAX_SAFE_INTEGER; lia].
  - change "-3"%string with (toString (-3)).
    rewrite changeUserCount_decimal;
      [reflexivity | unfold isSafeInteger, MAX_SAFE_INTEGER; lia].
Defined.

(** X3: every count from 1 up to [MAX_SAFE_INTEGER] is reached: once the
    loading view is gone, typing its decimal form gives it. *)
Theorem every_positive_count_reachable (n : Z) :
  1 <= n <= MAX_SAFE_INTEGER ->
  exists st, Reachable st /\ loading st = false /\ userCount st = n.
Proof.
  intros Hn.
  exists (run (initialState None)
              [InitialProductsChanged None (FetchThrows "offline");
               TypeUserCount (toString n)]).
  split; [apply Reachable_run; reflexivity |].
  split; [unfold run; cbn; rewrite changeUserCount_toString; reflexivity |].
  unfold run. cbn. rewrite changeUserCount_toString. cbn. lia.
Qed.

Lemma every_positive_count_reachable_witness :
  exists st, Reachable st /\ loading st = false /\ userCount st = 250.
Proof.
  apply (every_positive_count_reachable 250).
  unfold MAX_SAFE_INTEGER. lia.
Defined.

(** X4: the plus and minus buttons undo each other wherever the count can
    move, below [MAX_SAFE_INTEGER]: minus after plus restores a state of
    count at least 1, plus after minus a state of count at least 2; at
    count 1 minus changes nothing. *)
Theorem plus_minus_cancel (st : State) :
  1 <= userCount st < MAX_SAFE_INTEGER ->
  clickDecrement (clickIncrement st) = st
  /\ (2 <= userCount st -> clickIncrement (clickDecrement st) = st)
  /\ (userCount st = 1 -> clickDecrement st = st).
Proof.
  intros Hu. destruct st as [ps pk sel u total custom sub err ld].
  cbn in Hu. unfold clickDecrement, clickIncrement, setUserCount. cbn.
  split; [| split].
  - f_equal. lia.
  - intros H2. f_equal. lia.
  - intros ->. reflexivity.
Qed.

Lemma plus_minus_cancel_witness :
  clickDecrement (clickIncrement (initialState None)) = initialState None
  /\ clickDecrement (initialState None) = initialState None.
Proof.
  destruct (plus_minus_cancel (initialState None)) as (H1 & _ & H3).
  - cbn. unfold MAX_SAFE_INTEGER. lia.
  - split; [exact H1 | exact (H3 eq_refl)].
Defined.

(* ------------------------------------------------------------------ *)
(** ** The price calculator and the two displays *)

From Stdlib Require Qcanon.

Lemma Qred_inject_Z (z : Z) : Qred (inject_Z z) = inject_Z z.
Proof. apply Qcanon.Qred_identity. cbn. apply Z.gcd_1_r. Qed.

Lemma mul_ofZ (a b : Z) : mul (ofZ a) (ofZ b) = ofZ (a * b).
Proof.
  unfold mul, ofZ. f_equal.
  rewrite (Qred_complete _ (inject_Z (a * b))); [apply Qred_inject_Z |].
  now rewrite inject_Z_mult.
Qed.

Lemma add_ofZ (a b : Z) : add (ofZ a) (ofZ b) = ofZ (a + b).
Proof.
  unfold add, ofZ. f_equal.
  rewrite (Qred_complete _ (inject_Z (a + b))); [apply Qred_inject_Z |].
  now rewrite inject_Z_plus.
Qed.

Lemma round_half_ofZ (t : Z) : Math_round (half (ofZ t)) = ofZ ((t + 1) / 2).
Proof.
  unfold Math_round, half, ofZ. do 2 f_equal.
  rewrite (Qfloor_comp _ (Qmake (t + 1) 2)).
  - reflexivity.
  - rewrite Qred_correct. unfold Qeq, Qdiv, Qmult, Qplus, Qinv, inject_Z. cbn. lia.
Qed.

(** What the user count card shows under the input. *)
Inductive SubtotalDisplay : Type :=
| CustomPricingAvailable
| Subtotal (amount : Z).

Definition subtotalDisplay (st : State) : SubtotalDisplay :=
  if userCount st >? 50 then CustomPricingAvailable
  else Subtotal (USER_PRICE * userCount st).

Lemma calculateTotal_found (st : State) (pkg : PricingOption.t) :
  selectedPackage st = Some pkg ->
  calculateTotal st =
    if userCount st >? 50 then setIsCustomPricing true st
    else setTotalPrice
           (add (PricingOption.price pkg)
                (mul (ofZ USER_PRICE) (ofZ (userCount st))))
           (setIsCustomPricing false st).
Proof. intros E. unfold calculateTotal. now rewrite E. Qed.

(** X5: once the price effect has run with a listed tier selected, the
    total panel and the user count card agree.  Above 50 users the panel
    reads "Custom Quote", the card "Custom Pricing Available", and the
    stored total is the one from before; up to 50 users the panel shows
    the base price plus the subtotal of the card. *)
Theorem displays_agree_after_calculateTotal (st : State) (pkg : PricingOption.t) :
  selectedPackage st = Some pkg ->
  JsString.truthy (selectedAnimation st) = true ->
  let st' := calculateTotal st in
  (userCount st > 50 ->
     totalDisplay st' = CustomQuote
     /\ subtotalDisplay st' = CustomPricingAvailable
     /\ totalPrice st' = totalPrice st)
  /\ (userCount st <= 50 ->
      exists subtotal deposit,
        subtotalDisplay st' = Subtotal subtotal
        /\ totalDisplay st'
           = Priced (add (PricingOption.price pkg) (ofZ subtotal)) deposit)
  /\ (totalDisplay st' = CustomQuote
      <-> subtotalDisplay st' = CustomPricingAvailable).
Proof.
  intros Hsel Hsome st'. subst st'. rewrite (calculateTotal_found st pkg Hsel).
  unfold totalDisplay, subtotalDisplay.
  destruct (userCount st >? 50) eqn:Hu;
    cbn [setTotalPrice setIsCustomPricing selectedAnimation userCount
         isCustomPricing totalPrice]; rewrite Hsome, ?Hu; cbn [negb].
  - apply Z.gtb_lt in Hu. split; [auto |]. split; [lia | tauto].
  - rewrite Z.gtb_ltb in Hu. apply Z.ltb_ge in Hu.
    split; [lia |]. split.
    + intros _. do 2 eexists. split; [reflexivity |].
      now rewrite mul_ofZ.
    + split; discriminate.
Qed.

Lemma displays_agree_after_calculateTotal_witness :
  totalDisplay (calculateTotal (setUserCount 51 starterChosen)) = CustomQuote
  /\ subtotalDisplay (calculateTotal (setUserCount 51 starterChosen))
     = CustomPricingAvailable.
Proof.
  destruct (displays_agree_after_calculateTotal
              (setUserCount 51 starterChosen)
              (formatPackage starterSignature) eq_refl eq_refl) as (H & _).
  destruct H as (H1 & H2 & _); [reflexivity | split; assumption].
Defined.

(** X6: the price effect only writes the total and the custom-quote flag,
    and running it again changes nothing. *)
Theorem calculateTotal_settles (st : State) :
  calculateTotal (calculateTotal st) = calculateTotal st
  /\ products (calculateTotal st) = products st
  /\ animationPackages (calculateTotal st) = animationPackages st
  /\ selectedAnimation (calculateTotal st) = selectedAnimation st
  /\ userCount (calculateTotal st) = userCount st
  /\ isSubmitting (calculateTotal st) = isSubmitting st
  /\ error (calculateTotal st) = error st
  /\ loading (calculateTotal st) = loading st.
Proof.
  assert (Hframe : selectedPackage (calculateTotal st) = selectedPackage st
                   /\ userCount (calculateTotal st) = userCount st).
  { unfold calculateTotal.
    destruct (selectedPackage st) eqn:E; [| split; [exact E | reflexivity]].
    destruct (userCount st >? 50); split; (exact E || reflexivity). }
  destruct Hframe as [Hp Hu]. split.
  - unfold calculateTotal at 1. rewrite Hp, Hu. unfold calculateTotal.
    destruct (selectedPackage st); [| reflexivity].
    destruct (userCount st >? 50); reflexivity.
  - unfold calculateTotal. destruct (selectedPackage st); [| repeat split].
    destruct (userCount st >? 50); repeat split.
Qed.

(** X7: for a tier whose base price is a whole number p, with p and the
    total safe integers, and 1 <= u <= 50 the
    total is the whole number p + 50 * u and the deposit shown is
    (total + 1) div 2: an odd total is rounded up, so twice the deposit
    covers the total and exceeds it by at most 1. *)
Theorem whole_price_total_and_deposit (st : State) (pkg : PricingOption.t) (p : Z) :
  selectedPackage st = Some pkg ->
  PricingOption.price pkg = ofZ p ->
  - MAX_SAFE_INTEGER <= p <= MAX_SAFE_INTEGER - 2500 ->
  JsString.truthy (selectedAnimation st) = true ->
  1 <= userCount st <= 50 ->
  let total := p + 50 * userCount st in
  exists deposit,
    totalPrice (calculateTotal st) = ofZ total
    /\ totalDisplay (calculateTotal st) = Priced (ofZ total) (ofZ deposit)
    /\ deposit = (total + 1) / 2
    /\ total <= 2 * deposit <= total + 1.
Proof.
  intros Hsel Hp _ Hsome Hu total. exists ((total + 1) / 2).
  rewrite (calculateTotal_found st pkg Hsel).
  replace (userCount st >? 50) with false
    by (symmetry; rewrite Z.gtb_ltb; apply Z.ltb_ge; lia).
  rewrite Hp, mul_ofZ, add_ofZ. unfold totalDisplay.
  cbn [setTotalPrice setIsCustomPricing selectedAnimation isCustomPricing
       totalPrice]. rewrite Hsome. cbn [negb].
  rewrite round_half_ofZ. fold total.
  repeat split; Z.to_euclidean_division_equations; lia.
Qed.

Lemma whole_price_total_and_deposit_witness :
  totalDisplay (calculateTotal (setUserCount 3 starterChosen))
  = Priced (ofZ 950) (ofZ 475).
Proof.
  destruct (whole_price_total_and_deposit
              (setUserCount 3 starterChosen) (formatPackage starterSignature)
              800 eq_refl eq_refl) as (d & _ & H & -> & _).
  - unfold MAX_SAFE_INTEGER. lia.
  - reflexivity.
  - cbn. lia.
  - exact H.
Defined.

(* ------------------------------------------------------------------ *)
(** ** The checkout handoff *)

(** The product the handler looks up for the selected id. *)
Definition selectedProduct (st : State) : option ShopifyProduct.t :=
  match products st with
  | None => None
  | Some ps =>
      find (fun p => (ShopifyProduct.id p =? selectedAnimation st)%string) ps
  end.

(** The one call the handler makes to the cart service, for a variant. *)
Definition cartCallFor (st : State) (variantId : string) : CartCall :=
  mkCartCall variantId 1 [("User Count"%string, toString (userCount st))]
             sellingPlanId.

Definition callCart
    (createCart : string -> Z -> list (string * string) -> string -> CartResult)
    (call : CartCall) : CartResult :=
  createCart (cc_variantId call) (cc_quantity call) (cc_customAttributes call)
             (cc_sellingPlanId call).

(** The five ways a click on "Get Started" can end. *)
Inductive Ending
    (createCart : string -> Z -> list (string * string) -> string -> CartResult)
    (st : State) (out : Outcome) : Prop :=
| NoPackage :
    selectedPackage st = None ->
    cartCalls out = [] -> location out = None ->
    error (finalState out) = Some "Error: Selected package not found"%string ->
    Ending createCart st out
| NoProduct :
    selectedPackage st <> None -> selectedProduct st = None ->
    cartCalls out = [] -> location out = None ->
    error (finalState out) = Some "Error: Product not found"%string ->
    Ending createCart st out
| NoVariant product :
    selectedPackage st <> None -> selectedProduct st = Some product ->
    (snd (findVariantForUserCount product (userCount st)) = None
     \/ snd (findVariantForUserCount product (userCount st)) = Some ""%string) ->
    cartCalls out = [] -> location out = None ->
    error (finalState out)
    = Some ("Error: No variant found for user count: "
            ++ toString (userCount st))%string ->
    Ending createCart st out
| CartCreated product variantId checkoutUrl :
    selectedPackage st <> None -> selectedProduct st = Some product ->
    snd (findVariantForUserCount product (userCount st)) = Some variantId ->
    variantId <> ""%string ->
    cartCalls out = [cartCallFor st variantId] ->
    callCart createCart (cartCallFor st variantId) = CartOk checkoutUrl ->
    location out = Some checkoutUrl ->
    error (finalState out) = None ->
    Ending createCart st out
| CartFailed product variantId message :
    selectedPackage st <> None -> selectedProduct st = Some product ->
    snd (findVariantForUserCount product (userCount st)) = Some variantId ->
    variantId <> ""%string ->
    cartCalls out = [cartCallFor st variantId] ->
    callCart createCart (cartCallFor st variantId) = CartThrows message ->
    location out = None ->
    error (finalState out) = Some ("Error: " ++ message)%string ->
    Ending createCart st out.

Lemma handleGetStarted_ending
    (createCart : string -> Z -> list (string * string) -> string -> CartResult)
    (st : State) :
  Ending createCart st (handleGetStarted createCart st).
Proof.
  unfold handleGetStarted, tryGetStarted.
  set (st1 := setError None (setIsSubmitting true st)).
  change (selectedPackage st1) with (selectedPackage st).
  change (match products st1 with
          | Some ps =>
              find (fun p => (ShopifyProduct.id p =? selectedAnimation st1)%string) ps
          | None => None
          end) with (selectedProduct st).
  change (userCount st1) with (userCount st).
  destruct (selectedPackage st) as [pkg |] eqn:Epkg;
    [| apply NoPackage; first [assumption | reflexivity]].
  assert (Hpkg : selectedPackage st <> None) by (rewrite Epkg; discriminate).
  destruct (selectedProduct st) as [product |] eqn:Eprod;
    [| apply NoProduct; first [assumption | reflexivity]].
  destruct (findVariantForUserCount product (userCount st)) as [logs vid] eqn:Ev.
  assert (Hv : snd (findVariantForUserCount product (userCount st)) = vid)
    by now rewrite Ev.
  destruct vid as [vid |];
    [| apply (NoVariant _ _ _ product); first [assumption | reflexivity | now left]].
  destruct (JsString.truthy vid) eqn:Et.
  - apply truthy_iff in Et.
    destruct (createCart vid 1 [("User Count"%string, toString (userCount st))]
                         sellingPlanId) as [url | message] eqn:Ecart.
    + apply (CartCreated _ _ _ product vid url);
        first [assumption | reflexivity].
    + apply (CartFailed _ _ _ product vid message);
        first [assumption | reflexivity].
  - apply (NoVariant _ _ _ product); try first [assumption | reflexivity].
    right. rewrite Hv. f_equal.
    unfold JsString.truthy in Et. apply negb_false_iff in Et.
    now apply String.eqb_eq.
Qed.

(** X8: every call the handler makes to the cart service asks for quantity
    1 under the 50%-deposit selling plan, with the user count in decimal as
    the only custom attribute, and for the non-empty variant id the resolver
    returns for the product of the selected id; it makes at most one call. *)
Theorem cart_call_shape
    (createCart : string -> Z -> list (string * string) -> string -> CartResult)
    (st : State) :
  let out := handleGetStarted createCart st in
  (List.length (cartCalls out) <= 1)%nat
  /\ forall call, In call (cartCalls out) ->
       cc_quantity call = 1
       /\ cc_sellingPlanId call = "gid://shopify/SellingPlan/3226403001"%string
       /\ cc_customAttributes call
          = [("User Count"%string, toString (userCount st))]
       /\ cc_variantId call <> ""%string
       /\ exists product,
            selectedProduct st = Some product
            /\ snd (findVariantForUserCount product (userCount st))
               = Some (cc_variantId call).
Proof.
  intros out. subst out.
  destruct (handleGetStarted_ending createCart st)
    as [_ Hc _ _ | _ _ Hc _ _ | product _ _ _ Hc _ _
        | product vid url _ Hprod Hv Hne Hc _ _ _
        | product vid message _ Hprod Hv Hne Hc _ _ _];
    rewrite Hc; cbn [List.length In]; (split; [lia |]);
    intros call Hin; try tauto;
    destruct Hin as [<- | []]; cbn; repeat split; eauto.
Qed.

(** X9: when the handler navigates, it is to the checkout URL the cart
    service returned for its single call; the error message is cleared,
    submission is enabled again and the selection is as before. *)
Theorem successful_checkout
    (createCart : string -> Z -> list (string * string) -> string -> CartResult)
    (st : State) (url : string) :
  let out := handleGetStarted createCart st in
  location out = Some url ->
  (exists call, cartCalls out = [call]
                /\ callCart createCart call = CartOk url)
  /\ error (finalState out) = None
  /\ isSubmitting (finalState out) = false
  /\ selection (finalState out) = selection st.
Proof.
  intros out Hloc.
  destruct (handleGetStarted_frame createCart st) as (_ & _ & Hsel & _ & Hsub).
  fold out in Hsel, Hsub.
  destruct (handleGetStarted_ending createCart st)
    as [_ _ Hl _ | _ _ _ Hl _ | product _ _ _ _ Hl _
        | product vid url' _ _ _ _ Hc Hcart Hl He
        | product vid message _ _ _ _ _ _ Hl _];
    fold out in Hl; rewrite Hl in Hloc; try discriminate.
  injection Hloc as ->. fold out in Hc, He.
  split; [eauto |]. auto.
Qed.

Lemma successful_checkout_witness :
  let out := handleGetStarted (fun _ _ _ _ => CartOk "https://checkout.example/c/1")
                              (calculateTotal starterChosen) in
  error (finalState out) = None
  /\ isSubmitting (finalState out) = false
  /\ List.length (cartCalls out) = 1%nat.
Proof.
  cbv zeta.
  destruct (successful_checkout
              (fun _ _ _ _ => CartOk "https://checkout.example/c/1")
              (calculateTotal starterChosen) "https://checkout.example/c/1")
    as (_ & H1 & H2 & _).
  - reflexivity.
  - split; [exact H1 |]. split; [exact H2 | reflexivity].
Defined.

Lemma find_formatPackage (sel : string) (ps : list ShopifyProduct.t) :
  find (fun p => (PricingOption.id p =? sel)%string) (map formatPackage ps)
  = option_map formatPackage
      (find (fun p => (ShopifyProduct.id p =? sel)%string) ps).
Proof.
  induction ps as [| p ps IH]; [reflexivity |]. cbn [map find].
  change (PricingOption.id (formatPackage p)) with (ShopifyProduct.id p).
  destruct (ShopifyProduct.id p =? sel)%string; [reflexivity | exact IH].
Qed.

(** X10: when the tiers are the ones made from the current product list, a
    selected tier always has its product: the handler never ends in
    "Product not found"; with a tier selected it either calls the cart
    service or reports that no variant was found. *)
Theorem synced_tiers_have_products
    (createCart : string -> Z -> list (string * string) -> string -> CartResult)
    (st : State) (ps : list ShopifyProduct.t) :
  products st = Some ps ->
  animationPackages st = map formatPackage ps ->
  let out := handleGetStarted createCart st in
  selectedPackage st = option_map formatPackage (selectedProduct st)
  /\ (selectedPackage st <> None ->
      cartCalls out <> []
      \/ error (finalState out)
         = Some ("Error: No variant found for user count: "
                 ++ toString (userCount st))%string).
Proof.
  intros Hps Hpk out.
  assert (Hsync : selectedPackage st
                  = option_map formatPackage (selectedProduct st)).
  { unfold selectedPackage, selectedProduct. rewrite Hps, Hpk.
    apply find_formatPackage. }
  split; [exact Hsync |]. intros Hsel. subst out.
  destruct (handleGetStarted_ending createCart st)
    as [Hno _ _ _ | _ Hprod _ _ _ | product _ _ _ _ _ He
        | product vid url _ _ _ _ Hc _ _ _
        | product vid message _ _ _ _ Hc _ _ _].
  - contradiction.
  - rewrite Hprod in Hsync. contradiction.
  - right. exact He.
  - left. rewrite Hc. discriminate.
  - left. rewrite Hc. discriminate.
Qed.

Lemma synced_tiers_have_products_witness :
  selectedPackage (calculateTotal starterChosen)
  = Some (formatPackage starterSignature)
  /\ cartCalls (handleGetStarted (fun _ _ _ _ => CartThrows "Product not found")
                                 (calculateTotal starterChosen)) <> [].
Proof.
  destruct (synced_tiers_have_products
              (fun _ _ _ _ => CartThrows "Product not found")
              (calculateTotal starterChosen) [starterSignature]
              eq_refl eq_refl) as (H1 & H2).
  split; [exact H1 |].
  destruct H2 as [H | H]; [discriminate | exact H | discriminate H].
Defined.

(** X11: what is charged follows what is shown.  After the price effect
    has run with a tier selected, a cart call asks for one of the three
    custom-quote variants when the custom-quote flag is set, and for a
    variant of the selected product when it is not. *)
Theorem checkout_follows_display
    (createCart : string -> Z -> list (string * string) -> string -> CartResult)
    (st : State) (pkg : PricingOption.t) :
  selectedPackage st = Some pkg ->
  let st' := calculateTotal st in
  forall call, In call (cartCalls (handleGetStarted createCart st')) ->
    if isCustomPricing st'
    then In (cc_variantId call) quoteVariants
    else exists product v,
           selectedProduct st = Some product
           /\ In v (ShopifyProduct.variants product)
           /\ ShopifyVariant.id v = cc_variantId call.
Proof.
  intros Hsel st' call Hin.
  assert (Hflag : isCustomPricing st' = (userCount st >? 50)).
  { subst st'. rewrite (calculateTotal_found st pkg Hsel).
    destruct (userCount st >? 50); reflexivity. }
  assert (Hu : userCount st' = userCount st)
    by apply (calculateTotal_settles st).
  assert (Hprod : selectedProduct st' = selectedProduct st).
  { subst st'. unfold selectedProduct.
    destruct (calculateTotal_settles st) as (_ & -> & _ & -> & _).
    reflexivity. }
  assert (Hcall : exists product,
             selectedProduct st = Some product
             /\ snd (findVariantForUserCount product (userCount st))
                = Some (cc_variantId call)).
  { destruct (handleGetStarted_ending createCart st')
      as [_ Hc _ _ | _ _ Hc _ _ | product _ _ _ Hc _ _
          | product vid url _ Hp Hv _ Hc _ _ _
          | product vid message _ Hp Hv _ Hc _ _ _];
      rewrite Hc in Hin; try contradiction;
      destruct Hin as [<- | []]; exists product;
      rewrite <- Hprod, <- Hu; split; assumption. }
  destruct Hcall as (product & Hp & Hv).
  assert (Hne : ShopifyProduct.variants product <> []).
  { intros E. rewrite (findVariant_no_variant product _ E) in Hv. discriminate. }
  rewrite Hflag. destruct (userCount st >? 50) eqn:Hgt.
  - apply Z.gtb_lt in Hgt.
    destruct (findVariant_large product (userCount st) Hne) as [line E]; [lia |].
    rewrite E in Hv. injection Hv as <-. apply quoteVariantFor_in.
  - rewrite Z.gtb_ltb in Hgt. apply Z.ltb_ge in Hgt.
    destruct (findVariant_small product (userCount st) Hne Hgt)
      as (r & v & HR & E).
    exists product, v. split; [exact Hp |].
    split; [exact (Resolves_In _ _ _ _ HR) |].
    rewrite E in Hv. destruct r; cbn in Hv;
      try destruct (JsString.truthy (ShopifyVariant.id v));
      congruence.
Qed.

Lemma checkout_follows_display_witness :
  isCustomPricing (calculateTotal (setUserCount 60 starterChosen)) = true
  /\ In (cc_variantId
           (cartCallFor (calculateTotal (setUserCount 60 starterChosen))
                        STARTER_QUOTE))
        quoteVariants.
Proof.
  split; [reflexivity |].
  apply (checkout_follows_display
           (fun _ _ _ _ => CartOk "https://checkout.example/c/1")
           (setUserCount 60 starterChosen)
           (formatPackage starterSignature) eq_refl).
  left. reflexivity.
Defined.

(* ------------------------------------------------------------------ *)
(** ** The loading view *)

(** An event that is an effect, not an act of the visitor. *)
Definition isEffect (e : Event) : bool :=
  match e with
  | InitialProductsChanged _ _ | ProductsChanged | SelectionChanged => true
  | _ => false
  end.

(** An event other than a catalog fetch (the effect run without the
    [products] prop). *)
Definition withoutFetch (e : Event) : bool :=
  match e with
  | InitialProductsChanged None _ => false
  | _ => true
  end.

Lemma step_keeps_loading (st : State) (e : Event) :
  withoutFetch e = true -> loading (step st e) = loading st.
Proof.
  destruct e as [[ps |] response | | | id | | | value | createCart];
    cbn [withoutFetch step]; intros H; try discriminate; try reflexivity.
  - unfold processProducts. now destruct (products st).
  - apply (calculateTotal_settles st).
  - unfold changeUserCount. now destruct (parseInt value 0).
  - apply (handleGetStarted_frame createCart st).
Qed.

Lemma offered_while_loading (st : State) (e : Event) :
  loading st = true -> offered st e = true -> isEffect e = true.
Proof.
  intros Hl. destruct e; cbn [offered isEffect]; rewrite ?Hl; cbn;
    congruence.
Qed.

(** X12: the loading view only goes away at the end of a catalog fetch.
    When the product list is always handed in as a prop, [loading] stays
    true whatever happens, so the pricing section is never shown and no
    control is offered. *)
Theorem loading_never_ends_without_fetch
    (initialProducts : option (list ShopifyProduct.t)) (events : list Event) :
  forallb withoutFetch events = true ->
  let st := run (initialState initialProducts) events in
  loading st = true
  /\ forall e, offered st e = true -> isEffect e = true.
Proof.
  intros Hall st.
  assert (Hl : loading st = true).
  { subst st. unfold run.
    assert (H0 : loading (initialState initialProducts) = true) by reflexivity.
    revert H0. generalize (initialState initialProducts).
    induction events as [| e events IH]; intros s Hs; [exact Hs |].
    cbn in Hall. apply andb_true_iff in Hall. destruct Hall as [He Hall].
    cbn [fold_left]. apply IH; [exact Hall |].
    now rewrite step_keeps_loading. }
  split; [exact Hl |]. intros e. now apply offered_while_loading.
Qed.

Lemma loading_never_ends_without_fetch_witness :
  loading (run (initialState (Some [starterSignature]))
               [InitialProductsChanged (Some [starterSignature]) (FetchOk []);
                ProductsChanged; SelectionChanged]) = true.
Proof.
  apply (loading_never_ends_without_fetch (Some [starterSignature])).
  reflexivity.
Defined.

(* ------------------------------------------------------------------ *)
(** ** The packages on display *)

(** The rank the radio group sorts by: [order[type] || 99]. *)
Definition displayOrder (label : string) : Z :=
  if (label =? "Starter")%string then 1
  else if (label =? "Premium")%string then 2
  else 99.

(** The packages of the radio group: the listed ones, sorted by rank. *)
Definition displayedPackages (st : State) : list PricingOption.t :=
  JsArray.sort
    (fun a b => displayOrder (getDisplayTitle a) - displayOrder (getDisplayTitle b))
    (listedPackages st).

Section TwoRanks.
Context {A : Type} (rank : A -> Z).

Let ascending (a b : A) : Z := rank a - rank b.

Lemma insert_first_rank (x : A) (l : list A) :
  rank x = 1 -> (forall y, In y l -> 1 <= rank y) ->
  JsArray.insert ascending x l = x :: l.
Proof.
  intros Hx Hl. destruct l as [| y l]; [reflexivity |]. cbn.
  unfold ascending. specialize (Hl y (or_introl eq_refl)).
  replace (rank x - rank y <=? 0) with true
    by (symmetry; apply Z.leb_le; lia).
  reflexivity.
Qed.

Lemma insert_second_rank (x : A) (low high : list A) :
  rank x = 2 ->
  (forall y, In y low -> rank y = 1) ->
  (forall y, In y high -> rank y = 2) ->
  JsArray.insert ascending x (low ++ high) = low ++ x :: high.
Proof.
  intros Hx Hlow Hhigh. induction low as [| y low IH]; cbn.
  - destruct high as [| z high]; [reflexivity |]. cbn. unfold ascending.
    rewrite Hx, (Hhigh z (or_introl eq_refl)). reflexivity.
  - unfold ascending at 1. rewrite Hx, (Hlow y (or_introl eq_refl)). cbn.
    f_equal. apply IH. intros z Hz. apply Hlow. now right.
Qed.

(** A stable sort of elements of rank 1 or 2: those of rank 1, then those
    of rank 2, each group in its original order. *)
Lemma sort_two_ranks (l : list A) :
  (forall y, In y l -> rank y = 1 \/ rank y = 2) ->
  JsArray.sort ascending l
  = filter (fun y => rank y =? 1) l ++ filter (fun y => rank y =? 2) l.
Proof.
  induction l as [| x l IH]; intros Hl; [reflexivity |].
  cbn [JsArray.sort fold_right filter].
  change (fold_right (JsArray.insert ascending) [] l)
    with (JsArray.sort ascending l).
  rewrite IH by (intros y Hy; apply Hl; now right).
  destruct (Hl x (or_introl eq_refl)) as [Hx | Hx]; rewrite Hx; cbn.
  - apply insert_first_rank; [exact Hx |].
    intros y Hy. apply in_app_or in Hy.
    destruct Hy as [Hy | Hy]; apply filter_In in Hy; destruct Hy as [_ Hy];
      apply Z.eqb_eq in Hy; lia.
  - apply insert_second_rank; [exact Hx | |];
      intros y Hy; apply filter_In in Hy; destruct Hy as [_ Hy];
      now apply Z.eqb_eq in Hy.
Qed.

End TwoRanks.

Lemma filter_filter_sub {A : Type} (f g : A -> bool) (l : list A) :
  (forall x, f x = true -> g x = true) ->
  filter f (filter g l) = filter f l.
Proof.
  intros Hfg. induction l as [| x l IH]; [reflexivity |]. cbn.
  destruct (g x) eqn:Gx; cbn.
  - now rewrite IH.
  - destruct (f x) eqn:Fx; [| exact IH].
    apply Hfg in Fx. congruence.
Qed.

Definition hasLabel (label : string) (opt : PricingOption.t) : bool :=
  (getDisplayTitle opt =? label)%string.

(** X14: the radio group shows the tiers labelled Starter, then the tiers
    labelled Premium, each group in catalog order, and nothing else: a tier
    labelled Essential is never on display. *)
Theorem displayedPackages_starter_then_premium (st : State) :
  displayedPackages st
  = filter (hasLabel "Starter") (animationPackages st)
    ++ filter (hasLabel "Premium") (animationPackages st).
Proof.
  unfold displayedPackages.
  assert (Hrank : forall opt,
             In opt (listedPackages st) ->
             displayOrder (getDisplayTitle opt) = 1
             \/ displayOrder (getDisplayTitle opt) = 2).
  { intros opt Hin. apply filter_In in Hin. destruct Hin as [_ Hne].
    destruct (getDisplayTitle_label opt) as [E | [E | E]]; rewrite E in *;
      [left; reflexivity | discriminate Hne | right; reflexivity]. }
  rewrite (sort_two_ranks (fun opt => displayOrder (getDisplayTitle opt))
                          _ Hrank).
  unfold listedPackages. f_equal.
  - rewrite filter_filter_sub.
    + apply filter_ext. intros opt. unfold hasLabel.
      destruct (getDisplayTitle_label opt) as [E | [E | E]]; rewrite E;
        reflexivity.
    + intros opt H.
      destruct (getDisplayTitle_label opt) as [E | [E | E]]; rewrite E in *;
        (reflexivity || discriminate H).
  - rewrite filter_filter_sub.
    + apply filter_ext. intros opt. unfold hasLabel.
      destruct (getDisplayTitle_label opt) as [E | [E | E]]; rewrite E;
        reflexivity.
    + intros opt H.
      destruct (getDisplayTitle_label opt) as [E | [E | E]]; rewrite E in *;
        (reflexivity || discriminate H).
Qed.

(* ------------------------------------------------------------------ *)
(** ** What the resolver reads *)

(** Two variants with the same id and the same options. *)
Definition sameIdAndOptions (v v' : ShopifyVariant.t) : Prop :=
  ShopifyVariant.id v = ShopifyVariant.id v'
  /\ ShopifyVariant.selectedOptions v = ShopifyVariant.selectedOptions v'.

Section Related.
Context {A : Type} (R : A -> A -> Prop).

Lemma find_related (f : A -> bool) (l l' : list A) :
  Forall2 R l l' ->
  (forall x y, R x y -> f x = f y) ->
  match find f l, find f l' with
  | Some a, Some b => R a b
  | None, None => True
  | _, _ => False
  end.
Proof.
  intros HF Hf. induction HF as [| x y l l' Hxy _ IH]; [exact I |]. cbn.
  rewrite <- (Hf x y Hxy). destruct (f x); [exact Hxy | exact IH].
Qed.

Lemma filter_related (f : A -> bool) (l l' : list A) :
  Forall2 R l l' ->
  (forall x y, R x y -> f x = f y) ->
  Forall2 R (filter f l) (filter f l').
Proof.
  intros HF Hf. induction HF as [| x y l l' Hxy _ IH]; [constructor |]. cbn.
  rewrite <- (Hf x y Hxy). destruct (f x); [constructor |]; assumption.
Qed.

Lemma sort_related (cmp : A -> A -> Z) (l l' : list A) :
  Forall2 R l l' ->
  (forall x y a b, R x y -> R a b -> cmp x a = cmp y b) ->
  Forall2 R (JsArray.sort cmp l) (JsArray.sort cmp l').
Proof.
  intros HF Hcmp. induction HF as [| x y l l' Hxy _ IH]; [constructor |].
  cbn [JsArray.sort fold_right].
  change (fold_right (JsArray.insert cmp) [] l) with (JsArray.sort cmp l).
  change (fold_right (JsArray.insert cmp) [] l') with (JsArray.sort cmp l').
  induction IH as [| a b s s' Hab Hss IHs]; cbn; [repeat constructor; assumption |].
  rewrite <- (Hcmp x y a b Hxy Hab).
  destruct (cmp x a <=? 0); repeat constructor; assumption.
Qed.

End Related.

Lemma sameIdAndOptions_callbacks (v v' : ShopifyVariant.t) (u : Z) :
  sameIdAndOptions v v' ->
  isExactMatch u v = isExactMatch u v'
  /\ isValidVariant u v = isValidVariant u v'
  /\ extractUserCount v = extractUserCount v'.
Proof.
  intros [_ Hopts].
  unfold isExactMatch, isValidVariant, extractUserCount. now rewrite Hopts.
Qed.

Lemma resolver_reads_with_variant
    (product product' : ShopifyProduct.t) (u : Z) :
  ShopifyProduct.id product = ShopifyProduct.id product' ->
  ShopifyProduct.title product = ShopifyProduct.title product' ->
  ShopifyProduct.handle product = ShopifyProduct.handle product' ->
  Forall2 sameIdAndOptions (ShopifyProduct.variants product)
          (ShopifyProduct.variants product') ->
  ShopifyProduct.variants product <> [] ->
  findVariantForUserCount product u = findVariantForUserCount product' u.
Proof.
  intros Hid Htitle Hhandle Hvs Hne.
  assert (Hlabel : getDisplayTitle (quoteOption product)
                   = getDisplayTitle (quoteOption product'))
    by (apply getDisplayTitle_ext; cbn; auto).
  unfold findVariantForUserCount. rewrite Hlabel.
  pose proof (find_related sameIdAndOptions (isExactMatch u) _ _ Hvs
                (fun x y H => proj1 (sameIdAndOptions_callbacks x y u H)))
    as Hfind.
  pose proof (sort_related sameIdAndOptions
                (fun a b => extractUserCount b - extractUserCount a) _ _
                (filter_related sameIdAndOptions (isValidVariant u) _ _ Hvs
                   (fun x y H =>
                      proj1 (proj2 (sameIdAndOptions_callbacks x y u H)))))
    as Hsort.
  revert Hne.
  destruct Hvs as [| first first' rest rest' [Hfid _] _];
    [intros Hne; now elim Hne | intros _].
  rewrite Hfid.
  destruct (u >? 50); [reflexivity |].
  destruct (find (isExactMatch u) (first :: rest)) as [e |],
           (find (isExactMatch u) (first' :: rest')) as [e' |];
    try contradiction.
  - destruct Hfind as [-> _]. reflexivity.
  - assert (Hs : Forall2 sameIdAndOptions
                   (JsArray.sort
                      (fun a b => extractUserCount b - extractUserCount a)
                      (filter (isValidVariant u) (first :: rest)))
                   (JsArray.sort
                      (fun a b => extractUserCount b - extractUserCount a)
                      (filter (isValidVariant u) (first' :: rest')))).
    { apply Hsort. intros x y a b Hxy Hab.
      destruct (sameIdAndOptions_callbacks x y u Hxy) as (_ & _ & ->).
      destruct (sameIdAndOptions_callbacks a b u Hab) as (_ & _ & ->).
      reflexivity. }
    destruct Hs as [| best best' s s' Hbest _]; [reflexivity |].
    destruct (sameIdAndOptions_callbacks best best' u Hbest) as (_ & _ & ->).
    destruct Hbest as [-> _]. reflexivity.
Qed.


(** X15: the resolver reads nothing of a variant but its id and its
    options, and nothing of a product with a variant but its id, title,
    handle and variants: two products that agree on these get the same
    variant for every user count, and the same console output when they
    have a variant (without one, the product itself is written to the
    console).  Price, title and availability of the variants play no part,
    so a variant that is not available for sale is returned like any
    other. *)
Theorem resolver_reads_ids_and_options
    (product product' : ShopifyProduct.t) (u : Z) :
  ShopifyProduct.id product = ShopifyProduct.id product' ->
  ShopifyProduct.title product = ShopifyProduct.title product' ->
  ShopifyProduct.handle product = ShopifyProduct.handle product' ->
  Forall2 sameIdAndOptions (ShopifyProduct.variants product)
          (ShopifyProduct.variants product') ->
  snd (findVariantForUserCount product u)
  = snd (findVariantForUserCount product' u)
  /\ (ShopifyProduct.variants product <> [] ->
      findVariantForUserCount product u = findVariantForUserCount product' u).
Proof.
  intros Hid Htitle Hhandle Hvs.
  pose proof (resolver_reads_with_variant product product' u
                Hid Htitle Hhandle Hvs) as Hfull.
  split; [| exact Hfull].
  destruct (ShopifyProduct.variants product) as [| v0 vs0] eqn:Evs.
  - inversion Hvs as [E0 Evs' |]. symmetry in Evs'.
    now rewrite (findVariant_no_variant product u Evs),
                (findVariant_no_variant product' u Evs').
  - rewrite Hfull; [reflexivity | discriminate].
Qed.

Definition soldOut (v : ShopifyVariant.t) : ShopifyVariant.t :=
  ShopifyVariant.mk (ShopifyVariant.id v) "Sold out" "0.00" false
                    (ShopifyVariant.selectedOptions v).

Definition soldOutProduct : ShopifyProduct.t :=
  ShopifyProduct.mk "gid://shopify/Product/2" "Premium" "changed"
                    (Some "premium-signature")
                    (map soldOut (ShopifyProduct.variants tieredProduct)).

Lemma resolver_reads_ids_and_options_witness :
  snd (findVariantForUserCount soldOutProduct 35) = Some "v20"%string.
Proof.
  assert (H : findVariantForUserCount tieredProduct 35
              = findVariantForUserCount soldOutProduct 35).
  { apply resolver_reads_ids_and_options; try reflexivity;
      [repeat constructor | discriminate]. }
  rewrite <- H. reflexivity.
Defined.

(* ------------------------------------------------------------------ *)
(** ** The catalog response *)

(** The GraphQL answer to [GetProductsByCollection], as the fetch effect
    reads it.  A field the code tests before use is optional; the fields of
    product and variant nodes are the ones the query selects. *)

Module VariantNode.
Record t : Type := mk {
  id : string;
  title : string;
  amount : string;            (* priceV2.amount *)
  currencyCode : string;      (* priceV2.currencyCode *)
  availableForSale : bool;
  selectedOptions : option (list SelectedOption.t)
}.
End VariantNode.

Module ProductNode.
Record t : Type := mk {
  id : string;
  title : string;
  description : string;
  handle : option string;
  variants : list VariantNode.t      (* variants.edges[].node *)
}.
End ProductNode.

Module CollectionNode.
Record t : Type := mk {
  title : string;
  (* products, then products.edges, then the nodes of the edges *)
  products : option (option (list ProductNode.t))
}.
End CollectionNode.

Module ResponseBody.
Record t : Type := mk {
  error : option string;      (* data.error *)
  (* data.data, then .collections, then .edges, then the nodes of the edges *)
  data : option (option (option (list CollectionNode.t)))
}.
End ResponseBody.

(** What [fetch] and [response.json()] end in. *)
Inductive FetchAttempt : Type :=
| FetchRejected (message : string)
| Responded (ok : bool) (status : Z) (json : string + ResponseBody.t).

Definition transformVariant (variant : VariantNode.t) : ShopifyVariant.t :=
  {| ShopifyVariant.id := VariantNode.id variant;
     ShopifyVariant.title := VariantNode.title variant;
     ShopifyVariant.price := VariantNode.amount variant;
     ShopifyVariant.available := VariantNode.availableForSale variant;
     ShopifyVariant.selectedOptions := VariantNode.selectedOptions variant |}.

Definition transformProduct (product : ProductNode.t) : ShopifyProduct.t :=
  {| ShopifyProduct.id := ProductNode.id product;
     ShopifyProduct.title := ProductNode.title product;
     ShopifyProduct.description := ProductNode.description product;
     ShopifyProduct.handle := ProductNode.handle product;
     ShopifyProduct.variants := map transformVariant (ProductNode.variants product) |}.

(** The checks on [data.data] and on the first collection, and the
    transformation of its products. *)
Definition readData (body : ResponseBody.t) : FetchResult :=
  match ResponseBody.data body with
  | Some (Some (Some (collection :: _))) =>
      match CollectionNode.products collection with
      | Some (Some (node :: nodes)) =>
          FetchOk (map transformProduct (node :: nodes))
      | _ => FetchThrows "No products found in collection"
      end
  | _ => FetchThrows "Collection not found"
  end.

(** The body of [try] in [fetchProducts], up to [setProducts]. *)
Definition readCatalog (attempt : FetchAttempt) : FetchResult :=
  match attempt with
  | FetchRejected message => FetchThrows message
  | Responded ok status json =>
      if negb ok then FetchThrows ("API error: " ++ toString status)%string
      else
        match json with
        | inl message => FetchThrows message
        | inr body =>
            match ResponseBody.error body with
            | Some e => if JsString.truthy e then FetchThrows e else readData body
            | None => readData body
            end
        end
  end.

(** The tier the normalizer makes of a product node once fetched. *)
Definition tierOfNode (node : ProductNode.t) : PricingOption.t :=
  {| PricingOption.id := ProductNode.id node;
     PricingOption.name := ProductNode.title node;
     PricingOption.description := ProductNode.description node;
     PricingOption.price :=
       match ProductNode.variants node with
       | first :: _ => JsFloat.parseFloat (VariantNode.amount first)
       | [] => ofZ 0
       end;
     PricingOption.handle := ProductNode.handle node |}.

Lemma formatPackage_transformProduct (node : ProductNode.t) :
  formatPackage (transformProduct node) = tierOfNode node.
Proof.
  unfold formatPackage, transformProduct, tierOfNode. cbn.
  now destruct (ProductNode.variants node).
Qed.

Lemma readData_ok (body : ResponseBody.t) (ps : list ShopifyProduct.t) :
  readData body = FetchOk ps ->
  exists collection others nodes,
    ResponseBody.data body = Some (Some (Some (collection :: others)))
    /\ CollectionNode.products collection = Some (Some nodes)
    /\ nodes <> []
    /\ ps = map transformProduct nodes.
Proof.
  unfold readData.
  destruct (ResponseBody.data body) as [[[[| collection others] |] |] |];
    try discriminate.
  destruct (CollectionNode.products collection) as [[[| node nodes] |] |]
    eqn:Ep; try discriminate.
  intros [= <-]. exists collection, others, (node :: nodes).
  repeat split; auto. discriminate.
Qed.

(** X16: a catalog response gives products only when it is ok, carries no
    error and its first collection has at least one product; the products
    are then those of the first collection alone, one per product edge and
    in order, never an empty list.  Once stored and normalized they give one
    tier per product node, priced by the parse of [priceV2.amount] of the
    node's first variant (0 without variants); the loading view goes away
    and an earlier error message stays. *)
Theorem fetched_products_are_first_collection
    (attempt : FetchAttempt) (ps : list ShopifyProduct.t) (st : State) :
  readCatalog attempt = FetchOk ps ->
  exists status body collection others nodes,
    attempt = Responded true status (inr body)
    /\ (ResponseBody.error body = None \/ ResponseBody.error body = Some ""%string)
    /\ ResponseBody.data body = Some (Some (Some (collection :: others)))
    /\ CollectionNode.products collection = Some (Some nodes)
    /\ nodes <> []
    /\ ps = map transformProduct nodes
    /\ let st' := processProducts (fetchProducts None (readCatalog attempt) st) in
       products st' = Some ps
       /\ animationPackages st' = map tierOfNode nodes
       /\ loading st' = false
       /\ error st' = error st.
Proof.
  intros Hok.
  destruct attempt as [message | ok status [message | body]];
    cbn in Hok; try discriminate;
    destruct ok; cbn in Hok; try discriminate.
  assert (Herr : (ResponseBody.error body = None
                  \/ ResponseBody.error body = Some ""%string)
                 /\ readData body = FetchOk ps).
  { destruct (ResponseBody.error body) as [e |]; [| auto].
    destruct (JsString.truthy e) eqn:Et; [discriminate |].
    split; [| exact Hok]. right. f_equal.
    unfold JsString.truthy in Et. apply negb_false_iff in Et.
    now apply String.eqb_eq. }
  destruct Herr as [Herr Hdata].
  destruct (readData_ok body ps Hdata)
    as (collection & others & nodes & Hd & Hp & Hne & Hps).
  exists status, body, collection, others, nodes.
  split; [reflexivity |]. repeat (split; [assumption |]).
  assert (Hread : readCatalog (Responded true status (inr body)) = FetchOk ps).
  { cbn. destruct Herr as [-> | ->]; exact Hdata. }
  rewrite Hread. cbn. repeat split.
  rewrite Hps, map_map. apply map_ext. exact formatPackage_transformProduct.
Qed.

Definition starterNode : ProductNode.t :=
  ProductNode.mk "gid://shopify/Product/1" "Starter" "Animated logo"
                 (Some "starter-signature")
                 [VariantNode.mk "v1" "1 user" "800.00" "USD" true
                    (Some [SelectedOption.mk "User Count" "1"])].

Definition catalogReply : FetchAttempt :=
  Responded true 200
    (inr (ResponseBody.mk None
            (Some (Some (Some [CollectionNode.mk "Email Signatures"
                                 (Some (Some [starterNode]));
                               CollectionNode.mk "Email Signatures Archive"
                                 (Some (Some []))]))))).

Lemma fetched_products_are_first_collection_witness :
  products
    (processProducts
       (fetchProducts None (readCatalog catalogReply) (initialState None)))
  = Some [starterSignature].
Proof.
  destruct (fetched_products_are_first_collection
              catalogReply [starterSignature] (initialState None) eq_refl)
    as (status & body & collection & others & nodes & _ & _ & _ & _ & _ & _ & H).
  exact (proj1 H).
Defined.

(** X17: a failed catalog fetch leaves the product list, the tiers and the
    selection as they were, sets the error to "Error fetching products: "
    followed by the message thrown, and ends the loading view.  A response
    that is not ok reports its status without the body being read, and an
    error field in the body is reported even when the data is complete. *)
Theorem failed_fetch_reports_and_keeps
    (attempt : FetchAttempt) (message : string) (st : State) :
  readCatalog attempt = FetchThrows message ->
  let st' := fetchProducts None (readCatalog attempt) st in
  products st' = products st
  /\ animationPackages st' = animationPackages st
  /\ selection st' = selection st
  /\ error st' = Some ("Error fetching products: " ++ message)%string
  /\ loading st' = false
  /\ (forall status json,
        attempt = Responded false status json ->
        message = ("API error: " ++ toString status)%string)
  /\ (forall status e data,
        attempt = Responded true status (inr (ResponseBody.mk (Some e) data)) ->
        e <> ""%string -> message = e).
Proof.
  intros Hfail st'. subst st'. rewrite Hfail. cbn.
  repeat (split; [reflexivity |]). split.
  - intros status json ->. cbn in Hfail. congruence.
  - intros status e data -> He. cbn in Hfail.
    apply truthy_iff in He. rewrite He in Hfail. congruence.
Qed.

Lemma failed_fetch_reports_and_keeps_witness :
  error (fetchProducts None
           (readCatalog (Responded false 500 (inl "Unexpected token <"%string)))
           (initialState None))
  = Some "Error fetching products: API error: 500"%string.
Proof.
  destruct (failed_fetch_reports_and_keeps
              (Responded false 500 (inl "Unexpected token <"%string))
              "API error: 500" (initialState None) eq_refl)
    as (_ & _ & _ & H & _).
  exact H.
Defined.

(* ------------------------------------------------------------------ *)
(** ** More of the classifier *)

(** X18: the handle rules in their order: a handle that contains "starter"
    gives Starter, and one that contains "custom" but not "starter" gives
    Essential, whatever the id, name, description and price are. *)
Theorem getDisplayTitle_handle_rules
    (h id name description : string) (price : number) :
  let label :=
    getDisplayTitle (PricingOption.mk id name description price (Some h)) in
  (JsString.includes h "starter" = true -> label = "Starter"%string)
  /\ (JsString.includes h "starter" = false ->
      JsString.includes h "custom" = true -> label = "Essential"%string).
Proof.
  cbv zeta. unfold getDisplayTitle. cbn [PricingOption.handle]. split.
  - intros Hs.
    rewrite (includes_truthy h "starter" ltac:(discriminate) Hs), Hs.
    reflexivity.
  - intros Hs Hc.
    rewrite (includes_truthy h "custom" ltac:(discriminate) Hc), Hs, Hc.
    reflexivity.
Qed.

(** X19: a handle that contains none of "starter", "custom" and "premium"
    counts for nothing: the label is the one the same option gets without
    a handle, from its id, name and price.  The handle is not tested for
    "essential", and it is tested as it is written, not lower-cased. *)
Theorem getDisplayTitle_unknown_handle
    (h id name description : string) (price : number) :
  JsString.includes h "starter" = false ->
  JsString.includes h "custom" = false ->
  JsString.includes h "premium" = false ->
  getDisplayTitle (PricingOption.mk id name description price (Some h))
  = getDisplayTitle (PricingOption.mk id name description price None).
Proof.
  intros Hs Hc Hp. unfold getDisplayTitle. cbn [PricingOption.handle].
  rewrite Hs, Hc, Hp. now destruct (JsString.truthy h).
Qed.

Lemma getDisplayTitle_unknown_handle_witness :
  getDisplayTitle
    (PricingOption.mk "gid://shopify/Product/5" "Signature" "" (ofZ 2000)
                      (Some "Premium-essential-signature"))
  = "Premium"%string
  /\ getDisplayTitle
       (PricingOption.mk "gid://shopify/Product/5" "Signature" "" (ofZ 900)
                         (Some "Premium-essential-signature"))
     = "Starter"%string.
Proof.
  split;
    rewrite (getDisplayTitle_unknown_handle "Premium-essential-signature"
               _ _ _ _ eq_refl eq_refl eq_refl);
    reflexivity.
Defined.

Lemma getDisplayTitle_handle_rules_witness :
  getDisplayTitle
    (PricingOption.mk "gid://shopify/Product/6" "Premium" "" (ofZ 2000)
                      (Some "custom-starter-pack")) = "Starter"%string
  /\ getDisplayTitle
       (PricingOption.mk "gid://shopify/Product/6" "Premium" "" (ofZ 2000)
                         (Some "custom-premium-pack")) = "Essential"%string.
Proof.
  split.
  - exact (proj1 (getDisplayTitle_handle_rules "custom-starter-pack"
                    "gid://shopify/Product/6" "Premium" "" (ofZ 2000)) eq_refl).
  - exact (proj2 (getDisplayTitle_handle_rules "custom-premium-pack"
                    "gid://shopify/Product/6" "Premium" "" (ofZ 2000))
                 eq_refl eq_refl).
Defined.

(** The same option at another price. *)
Definition atPrice (price : number) (opt : PricingOption.t) : PricingOption.t :=
  PricingOption.mk (PricingOption.id opt) (PricingOption.name opt)
                   (PricingOption.description opt) price
                   (PricingOption.handle opt).

(** Either a metadata rule decides the label, at every price alike, or
    none applies. *)
Lemma label_by_metadata_or_price (opt : PricingOption.t) :
  (forall price, getDisplayTitle (atPrice price opt) = getDisplayTitle opt)
  \/ noMetadataRule opt.
Proof.
  unfold getDisplayTitle, atPrice. cbn [PricingOption.handle PricingOption.id
                                        PricingOption.name PricingOption.price].
  destruct (PricingOption.handle opt) as [h |] eqn:Eh.
  - destruct (JsString.truthy h) eqn:Et;
      [destruct (JsString.includes h "starter") eqn:H1; [now left |];
       destruct (JsString.includes h "custom") eqn:H2; [now left |];
       destruct (JsString.includes h "premium") eqn:H3; [now left |] |];
      (destruct (JsString.includes (JsString.toLowerCase (PricingOption.id opt))
                                   "starter") eqn:I1; [now left |];
       destruct (JsString.includes (JsString.toLowerCase (PricingOption.id opt))
                                   "custom") eqn:I2; [now left |];
       destruct (JsString.includes (JsString.toLowerCase (PricingOption.id opt))
                                   "essential") eqn:I3; [now left |];
       destruct (JsString.includes (JsString.toLowerCase (PricingOption.id opt))
                                   "premium") eqn:I4; [now left |];
       cbn [orb];
       destruct ((PricingOption.name opt =? "Starter")%string) eqn:N1;
         [now left |];
       destruct ((PricingOption.name opt =? "Essential")%string) eqn:N2;
         [now left |];
       destruct ((PricingOption.name opt =? "Premium")%string) eqn:N3;
         [now left |];
       right; split; [| split]).
    + intros h' Hh'. rewrite Eh in Hh'. injection Hh' as <-. auto.
    + intros w [<- | [<- | [<- | [<- | []]]]]; assumption.
    + intros [E | [E | E]]; rewrite E in *; discriminate.
    + intros h' Hh'. rewrite Eh in Hh'. injection Hh' as <-.
      unfold JsString.truthy in Et.
      apply negb_false_iff, String.eqb_eq in Et. subst h. auto.
    + intros w [<- | [<- | [<- | [<- | []]]]]; assumption.
    + intros [E | [E | E]]; rewrite E in *; discriminate.
  - destruct (JsString.includes (JsString.toLowerCase (PricingOption.id opt))
                                "starter") eqn:I1; [now left |].
    destruct (JsString.includes (JsString.toLowerCase (PricingOption.id opt))
                                "custom") eqn:I2; [now left |].
    destruct (JsString.includes (JsString.toLowerCase (PricingOption.id opt))
                                "essential") eqn:I3; [now left |].
    destruct (JsString.includes (JsString.toLowerCase (PricingOption.id opt))
                                "premium") eqn:I4; [now left |].
    cbn [orb].
    destruct ((PricingOption.name opt =? "Starter")%string) eqn:N1;
      [now left |].
    destruct ((PricingOption.name opt =? "Essential")%string) eqn:N2;
      [now left |].
    destruct ((PricingOption.name opt =? "Premium")%string) eqn:N3;
      [now left |].
    right. split; [| split].
    + intros h' Hh'. rewrite Eh in Hh'. discriminate Hh'.
    + intros w [<- | [<- | [<- | [<- | []]]]]; assumption.
    + intros [E | [E | E]]; rewrite E in *; discriminate.
Qed.

(** X23: above 50 users the custom-quote variant returned is the one of
    the label the tier is displayed under, except when no handle, id or
    name rule applies to the product: the tier is then labelled by its base
    price and the Starter custom-quote variant is returned.  In particular
    a product whose tier is not labelled Essential never gets the Essential
    custom-quote variant. *)
Theorem quote_variant_follows_displayed_label
    (product : ShopifyProduct.t) (u : Z) :
  ShopifyProduct.variants product <> [] ->
  u > 50 ->
  let shown := getDisplayTitle (formatPackage product) in
  (snd (findVariantForUserCount product u) = Some (quoteVariantFor shown)
   \/ noMetadataRule (formatPackage product)
      /\ snd (findVariantForUserCount product u) = Some STARTER_QUOTE)
  /\ (shown <> "Essential"%string ->
      snd (findVariantForUserCount product u) <> Some ESSENTIAL_QUOTE).
Proof.
  intros Hne Hu shown.
  destruct (findVariant_large product u Hne Hu) as [line E]. rewrite E.
  cbn [snd].
  assert (Hcases :
    getDisplayTitle (quoteOption product) = shown
    \/ noMetadataRule (formatPackage product)
       /\ getDisplayTitle (quoteOption product) = "Starter"%string).
  { destruct (label_by_metadata_or_price (formatPackage product)) as [H | H].
    - left. unfold shown. rewrite <- (H (ofZ 0)). reflexivity.
    - right. split; [exact H |].
      rewrite (noMetadataRule_price (quoteOption product) H). reflexivity. }
  split.
  - destruct Hcases as [-> | [Hno ->]]; [now left | right; now split].
  - intros Hshown.
    destruct Hcases as [-> | [_ ->]]; [| discriminate].
    destruct (getDisplayTitle_label (formatPackage product)) as [L | [L | L]];
      fold shown in L; rewrite L in *; [discriminate | congruence | discriminate].
Qed.

Lemma quote_variant_follows_displayed_label_witness :
  snd (findVariantForUserCount tieredProduct 75) = Some PREMIUM_QUOTE.
Proof.
  destruct (quote_variant_follows_displayed_label tieredProduct 75)
    as ([H | [H _]] & _).
  - discriminate.
  - reflexivity.
  - exact H.
  - exfalso. destruct H as (Hh & _).
    specialize (Hh "premium-signature"%string eq_refl).
    destruct Hh as (_ & _ & Hp). discriminate Hp.
Defined.

(* ================================================================== *)
(** * The contact form *)

Module ContactForm.

(** The form data object: its keys in insertion order, with their values. *)
Definition FormData : Type := list (string * string).

Definition initialFormData : FormData :=
  [("name", ""); ("email", ""); ("company", ""); ("product", "");
   ("emailProvider", ""); ("message", "")]%string.

(** [{ ...prev, [name]: value }]: an existing key keeps its place and takes
    the value, a new key goes last. *)
Fixpoint assign (name value : string) (prev : FormData) : FormData :=
  match prev with
  | [] => [(name, value)]
  | (k, v) :: rest =>
      if (k =? name)%string then (k, value) :: rest
      else (k, v) :: assign name value rest
  end.

(** [formData[name]]; [None] is [undefined]. *)
Fixpoint get (name : string) (data : FormData) : option string :=
  match data with
  | [] => None
  | (k, v) :: rest => if (k =? name)%string then Some v else get name rest
  end.

Record State : Type := mkState {
  formData : FormData;
  isSubmitting : bool
}.

Definition initialState : State := mkState initialFormData false.

(** [handleChange], for [e.target] of the given name and value. *)
Definition handleChange (name value : string) (st : State) : State :=
  mkState (assign name value (formData st)) (isSubmitting st).

Definition handleSelectChange (name value : string) (st : State) : State :=
  mkState (assign name value (formData st)) (isSubmitting st).

(** A value caught by [catch]: an [Error] with its message, or another. *)
Inductive Thrown : Type :=
| ErrorObject (message : string)
| OtherValue.

(** What the request to [/api/contact] ends in: [fetch] or
    [response.json()] rejects, or the reply is read, with [response.ok]
    and [data.error]. *)
Inductive Reply : Type :=
| Rejected (thrown : Thrown)
| Replied (ok : bool) (error : option string).

Record Toast : Type := mkToast {
  title : string;
  description : string;
  destructive : bool
}.

Record Outcome : Type := mkOutcome {
  finalState : State;
  toasts : list Toast;
  posted : list FormData
}.

(** [data.error || "Failed to send message"]. *)
Definition replyError (error : option string) : string :=
  match error with
  | Some e => if JsString.truthy e then e else "Failed to send message"
  | None => "Failed to send message"
  end.

(** [handleSubmit], as the state it leaves once the request has settled. *)
Definition handleSubmit (reply : Reply) (st : State) : Outcome :=
  let body := formData st in
  let failed (thrown : Thrown) :=
    mkOutcome
      (mkState (formData st) false)
      [mkToast "Something went wrong"
               match thrown with
               | ErrorObject message => message
               | OtherValue => "Please try again later."
               end
               true]
      [body] in
  match reply with
  | Rejected thrown => failed thrown
  | Replied ok error =>
      if negb ok then failed (ErrorObject (replyError error))
      else
        mkOutcome
          (mkState initialFormData false)
          [mkToast "Message sent!" "We'll get back to you as soon as possible."
                   false]
          [body]
  end.

(** X20: editing a field sets that field and no other, and a field that is
    already in the form keeps its place: no key is added, lost or moved. *)
Theorem assign_sets_one_field (name value : string) (data : FormData) :
  get name (assign name value data) = Some value
  /\ (forall other, other <> name ->
        get other (assign name value data) = get other data)
  /\ (get name data <> None ->
      map fst (assign name value data) = map fst data).
Proof.
  induction data as [| [k v] rest (IH1 & IH2 & IH3)]; cbn.
  - rewrite String.eqb_refl. repeat split.
    + intros other Hne. destruct (String.eqb_spec name other); congruence.
    + congruence.
  - destruct (String.eqb_spec k name) as [-> | Hk]; cbn.
    + rewrite String.eqb_refl. repeat split.
      intros other Hne. destruct (String.eqb_spec name other); congruence.
    + destruct (String.eqb_spec k name); [congruence |]. repeat split.
      * exact IH1.
      * intros other Hne. destruct (k =? other)%string; auto.
      * intros H. f_equal. auto.
Qed.

(** X21: every submission posts the form data as they were, shows exactly
    one toast and enables the button again.  The six fields are emptied
    when the reply is ok, with the toast "Message sent!", whether or not the
    reply carries an error field; in every other case the form data stay as
    they were and the toast is a destructive one. *)
Theorem submit_resets_only_when_sent (reply : Reply) (st : State) :
  let out := handleSubmit reply st in
  posted out = [formData st]
  /\ isSubmitting (finalState out) = false
  /\ exists toast,
       toasts out = [toast]
       /\ ((exists error, reply = Replied true error)
           /\ formData (finalState out) = initialFormData
           /\ toast = mkToast "Message sent!"
                              "We'll get back to you as soon as possible." false
           \/ (forall error, reply <> Replied true error)
              /\ formData (finalState out) = formData st
              /\ title toast = "Something went wrong"%string
              /\ destructive toast = true).
Proof.
  destruct reply as [thrown | [|] error]; cbn;
    (split; [reflexivity |]); (split; [reflexivity |]);
    eexists; (split; [reflexivity |]).
  - right. repeat split. discriminate.
  - left. repeat split. now exists error.
  - right. repeat split. discriminate.
Qed.

(** X22: a submission that fails keeps everything the visitor typed, shows
    one destructive toast and enables the button again.  The toast carries
    the error field of a reply that is not ok, the message of the exception
    otherwise, and a stock sentence when there is neither. *)
Theorem submit_failure_keeps_form (reply : Reply) (st : State) :
  (forall error, reply <> Replied true error) ->
  let out := handleSubmit reply st in
  formData (finalState out) = formData st
  /\ isSubmitting (finalState out) = false
  /\ posted out = [formData st]
  /\ exists text,
       toasts out = [mkToast "Something went wrong" text true]
       /\ (forall error, reply = Replied false error ->
             text = replyError error /\ text <> ""%string)
       /\ (forall message, reply = Rejected (ErrorObject message) ->
             text = message)
       /\ (reply = Rejected OtherValue ->
           text = "Please try again later."%string).
Proof.
  intros Hfail.
  destruct reply as [[message |] | [|] error]; cbn.
  - repeat split. exists message. repeat split; congruence.
  - repeat split. eexists. repeat split; congruence.
  - exfalso. exact (Hfail error eq_refl).
  - repeat split. eexists. split; [reflexivity |].
    split; [| split; [intros message [=] | intros [=]]].
    intros error' [= <-]. split; [reflexivity |]. unfold replyError.
    destruct error as [e |]; [| discriminate].
    destruct (JsString.truthy e) eqn:Et; [| discriminate].
    now apply truthy_iff.
Qed.

Lemma submit_failure_keeps_form_witness :
  let st := handleChange "message" "Hello" initialState in
  get "message" (formData (finalState (handleSubmit (Replied false None) st)))
  = Some "Hello"%string.
Proof.
  cbv zeta.
  destruct (submit_failure_keeps_form
              (Replied false None)
              (handleChange "message" "Hello" initialState)) as (H & _).
  - discriminate.
  - rewrite H. reflexivity.
Defined.

End ContactForm.
